(** * URL shortener microservice: the alias lifecycle engine

    A shallow embedding of the Express application (creation, statistics and
    redirect handlers over the in-memory [urlDatabase]) together with the
    properties of its specification.

    Modelling conventions.
    - A JavaScript string is a [string]; [charCodeAt] is the character's
      code.  Path parameters, header values and network addresses are ASCII.
    - A [Date] is its time value, an integer number of milliseconds since
      the epoch.  [toISOString] and the [Date] parser are inverse to each
      other on every valid time value, so a stored ISO string is identified
      with the instant it denotes; [toISOString] raises [RangeError] on an
      invalid date.  Clock readings are non-negative, which keeps the
      double-precision sum of [calculateExpiry] exact on every valid date.
    - [new Date()], [uuidv4()] and [Math.random()] are inputs of a handler:
      every call site has its own reading.
    - [urlDatabase] is a finite map from shortcodes to entries; an entry
      object is reachable through its own key only, so the in-place update
      of the redirect handler is an update of the map at that key.
    - The [Log] calls never throw (the logger catches every failure) and
      never touch the store; between two of them a handler runs without
      interruption.  They are left out, and a handler is one atomic step.
    - The handlers are given first on the bodies the API documents, whose
      [url] and [shortcode] are strings when present ([createAlias]);
      [createAlias_json] is the creation handler on any JSON body.  On a
      body of strings the two agree, and what [createAlias_json] does to the
      string-keyed entries is a step of [createAlias] or nothing. *)

From stdpp Require Import gmap strings list fin_maps.
From stdpp Require Import pretty.
From Stdlib Require Import ZArith Ascii String Lia.

Open Scope string_scope.
Open Scope Z_scope.

(** ** Strings *)

(** [String.prototype.charAt]: the empty string out of range. *)
Definition charAt (s : string) (i : nat) : string :=
  match String.get i s with
  | Some c => String c EmptyString
  | None => EmptyString
  end.

(** The character class [[a-zA-Z0-9]]. *)
Definition is_alnum (c : ascii) : bool :=
  let n := nat_of_ascii c in
  ((97 <=? n) && (n <=? 122) || (65 <=? n) && (n <=? 90)
   || (48 <=? n) && (n <=? 57))%nat.

(** Truthiness of a value that is [undefined] or a string. *)
Definition truthy (v : option string) : bool :=
  match v with
  | Some s => negb (String.eqb s "")
  | None => false
  end.

(** [v || d] for such a value. *)
Definition or_default (v : option string) (d : string) : string :=
  match v with
  | Some s => if String.eqb s "" then d else s
  | None => d
  end.

(** [a || b] where both may be [undefined]. *)
Definition or_else (a b : option string) : option string :=
  if truthy a then a else b.

(** ** ShortcodeGenerator *)

Definition chars : string :=
  "abcdefghijklmnopqrstuvwxyzABCDEFGHIJKLMNOPQRSTUVWXYZ0123456789".

(** The random source: the [i]-th evaluation of
    [Math.floor(Math.random() * chars.length)]. *)
Definition random_source := nat -> nat.

(** [Math.random()] lies in [[0, 1)], so every draw is an index of [chars]. *)
Definition draws_in_range (rnd : random_source) : Prop :=
  forall i, (rnd i < String.length chars)%nat.

(** The body of the [for] loop, [n] iterations from cursor [pos]. *)
Fixpoint append_chars (rnd : random_source) (pos n : nat) (result : string)
  : string :=
  match n with
  | O => result
  | S n' => append_chars rnd (S pos) n' (result ++ charAt chars (rnd pos))
  end.

(** [generateShortCode]: six draws; returns the code and the new cursor. *)
Definition generateShortCode (rnd : random_source) (pos : nat) : string * nat :=
  (append_chars rnd pos 6 "", (pos + 6)%nat).

(** [isValidShortcode]: the anchored pattern [^[a-zA-Z0-9]{3,20}$]. *)
Definition isValidShortcode (shortcode : string) : bool :=
  forallb is_alnum (list_ascii_of_string shortcode)
  && (3 <=? String.length shortcode)%nat
  && (String.length shortcode <=? 20)%nat.

(** ** ExpiryPolicy *)

(** Largest magnitude of a valid time value (ECMAScript TimeClip). *)
Definition MAX_TIME : Z := 8640000000000000.

(** [new Date(ms).toISOString()]: [None] stands for the [RangeError]. *)
Definition toISOString (ms : Z) : option Z :=
  if (Z.abs ms <=? MAX_TIME) then Some ms else None.

(** [calculateExpiry], with the reading [now] of its [new Date()]. *)
Definition calculateExpiry (now : Z) (validityMinutes : Z) : option Z :=
  toISOString (now + validityMinutes * 60 * 1000).

(** [isExpired], with the reading [now] of its [new Date()]. *)
Definition isExpired (now : Z) (expiryDate : Z) : bool :=
  now >? expiryDate.

(** ** LocationResolver *)

Record place := { country : string; city : string }.

Definition mockLocations : list place :=
  [ {| country := "United States"; city := "New York" |};
    {| country := "United Kingdom"; city := "London" |};
    {| country := "Germany"; city := "Berlin" |};
    {| country := "India"; city := "Mumbai" |};
    {| country := "Canada"; city := "Toronto" |} ].

Definition unknownLocation : place :=
  {| country := "Unknown"; city := "Unknown" |}.

(** ToInt32: wrap-around into the signed 32-bit range. *)
Definition to_int32 (z : Z) : Z := (z + 2 ^ 31) mod 2 ^ 32 - 2 ^ 31.

(** The reducer [(a, b) => { a = ((a << 5) - a) + b.charCodeAt(0);
    return a & a; }]. *)
Definition hash_step (a : Z) (b : ascii) : Z :=
  let a' := to_int32 (Z.shiftl (to_int32 a) 5) - a + Z.of_nat (nat_of_ascii b) in
  to_int32 (Z.land (to_int32 a') (to_int32 a')).

Definition ip_hash (ip : string) : Z :=
  fold_left hash_step (list_ascii_of_string ip) 0.

(** [getLocationFromIP]; the argument may be [undefined]. *)
Definition getLocationFromIP (ip : option string) : place :=
  match ip with
  | None => unknownLocation
  | Some s =>
      if String.eqb s "" || String.eqb s "Unknown" || String.eqb s "::1"
         || String.eqb s "127.0.0.1"
      then unknownLocation
      else List.nth
             (Z.to_nat (Z.abs (ip_hash s) mod Z.of_nat (List.length mockLocations)))
             mockLocations unknownLocation
  end.

(** ** Data model *)

(** The [clickData] object pushed by the redirect handler. *)
Module Click.
Record t := {
  timestamp : Z;
  userAgent : string;
  referer : string;
  ip : string;
  location : place
}.
End Click.

(** The [urlEntry] object stored by the creation handler. *)
Module Entry.
Record t := {
  id : string;
  originalUrl : string;
  shortcode : string;
  expiry : Z;
  createdAt : Z;
  clickCount : Z;
  clicks : list Click.t
}.
End Entry.

(** [urlDatabase]: a [Map] keyed by shortcode. *)
Abbreviation store := (gmap string Entry.t).

(** [urlDatabase.has]. *)
Definition has (db : store) (shortcode : string) : bool :=
  match db !! shortcode with
  | Some _ => true
  | None => false
  end.

(** ** Requests and responses *)

(** The [validity] field of the body: absent, a number with an integral
    value, or any other JSON value ([Number.isInteger] is false on it). *)
Inductive validity_field :=
  | ValidityAbsent
  | ValidityInt (n : Z)
  | ValidityOther.

(** The JSON body of [POST /shorturls] with [url] and [shortcode] strings or
    absent; [RawBody.t] is the body whatever its fields hold. *)
Module Body.
Record t := {
  url : option string;
  validity : validity_field;
  shortcode : option string
}.
End Body.

(** What the redirect handler reads of its request. *)
Module Req.
Record t := {
  user_agent : option string;     (* req.get('User-Agent') *)
  referer : option string;        (* req.get('Referer') *)
  ip : option string;             (* req.ip *)
  remoteAddress : option string   (* req.connection.remoteAddress *)
}.
End Req.

(** The readings a creation consumes: the clock of [calculateExpiry], the
    clock of [createdAt], the identifier of [uuidv4] and the random draws. *)
Module Effects.
Record t := {
  now_expiry : Z;
  now_created : Z;
  uuid : string;
  random : random_source
}.
End Effects.

(** One entry of [clickDetails]. *)
Module Detail.
Record t := {
  timestamp : Z;
  referer : string;
  userAgent : string;
  location : place
}.
End Detail.

(** The statistics object. *)
Module Stats.
Record t := {
  totalClicks : Z;
  originalUrl : string;
  creationDate : Z;
  expiryDate : Z;
  clickDetails : list Detail.t
}.
End Stats.

Inductive payload :=
  | ErrorBody (error message : string)
  | CreatedBody (shortLink : string) (expiry : Z)
  | StatisticsBody (statistics : Stats.t).

(** [res.status(s).json(b)] or [res.redirect(url)]. *)
Inductive response :=
  | Json (status : Z) (body : payload)
  | Redirect (url : string).

(** The error taxonomy of the service and its HTTP rendering. *)
Inductive error_kind :=
  | ValidationError
  | ConflictError
  | NotFoundError
  | ExpiredError
  | InternalError.

Definition status_of (r : response) : Z :=
  match r with
  | Json s _ => s
  | Redirect _ => 302
  end.

Definition error_of (r : response) : option error_kind :=
  match status_of r with
  | 400 => Some ValidationError
  | 409 => Some ConflictError
  | 404 => Some NotFoundError
  | 410 => Some ExpiredError
  | 500 => Some InternalError
  | _ => None
  end.

(** ** AliasService: the three handlers *)

Section Handlers.

(** [validator.isURL(url, { require_protocol: true })], of the validator
    package, and the port of the listener. *)
Variable isURL : string -> bool.
Variable PORT : string.

Definition url_required : response :=
  Json 400 (ErrorBody "URL is required"
              "Please provide a valid URL to shorten").

Definition invalid_url : response :=
  Json 400 (ErrorBody "Invalid URL format"
              "Please provide a valid URL with protocol (http:// or https://)").

Definition invalid_validity : response :=
  Json 400 (ErrorBody "Invalid validity period"
              "Validity must be a positive integer representing minutes").

Definition invalid_shortcode : response :=
  Json 400 (ErrorBody "Invalid shortcode format"
              "Shortcode must be alphanumeric and 3-20 characters long").

Definition shortcode_exists : response :=
  Json 409 (ErrorBody "Shortcode already exists"
              "The provided shortcode is already in use. Please choose a different one.").

Definition not_found : response :=
  Json 404 (ErrorBody "Short URL not found"
              "The requested short URL does not exist").

Definition expired : response :=
  Json 410 (ErrorBody "Short URL expired"
              "This short URL has expired and is no longer valid").

Definition internal_error (message : string) : response :=
  Json 500 (ErrorBody "Internal server error" message).

(** The validity block: the number of minutes, or the early return. *)
Definition validityMinutes_of (validity : validity_field) : response + Z :=
  match validity with
  | ValidityAbsent => inr 30
  | ValidityInt n => if n <=? 0 then inl invalid_validity else inr n
  | ValidityOther => inl invalid_validity
  end.

(** [do { finalShortcode = generateShortCode(); }
     while (urlDatabase.has(finalShortcode));]
    [fuel] bounds the iterations the model follows; [None] says that the
    loop is still running after that many. *)
Fixpoint generateUnique (fuel : nat) (db : store) (rnd : random_source)
    (pos : nat) : option string :=
  match fuel with
  | O => None
  | S fuel' =>
      let '(finalShortcode, pos') := generateShortCode rnd pos in
      if has db finalShortcode
      then generateUnique fuel' db rnd pos'
      else Some finalShortcode
  end.

(** The shortcode block: the final shortcode, the early return, or [None]
    while the generation loop runs. *)
Definition finalShortcode_of (fuel : nat) (db : store)
    (shortcode : option string) (rnd : random_source)
  : option (response + string) :=
  if truthy shortcode then
    let code := or_default shortcode "" in
    if negb (isValidShortcode code) then Some (inl invalid_shortcode)
    else if has db code then Some (inl shortcode_exists)
    else Some (inr code)
  else
    match generateUnique fuel db rnd 0 with
    | Some code => Some (inr code)
    | None => None
    end.

(** The [urlEntry] literal of the creation handler. *)
Definition new_entry (url finalShortcode : string) (expiryDate : Z)
    (eff : Effects.t) : Entry.t :=
  {| Entry.id := Effects.uuid eff;
     Entry.originalUrl := url;
     Entry.shortcode := finalShortcode;
     Entry.expiry := expiryDate;
     Entry.createdAt := Effects.now_created eff;
     Entry.clickCount := 0;
     Entry.clicks := [] |}.

(** Expiry, entry, insertion and the 201 response; the [RangeError] of
    [calculateExpiry] is caught by the handler's [catch]. *)
Definition store_entry (db : store) (url : string) (validityMinutes : Z)
    (finalShortcode : string) (protocol host : option string)
    (eff : Effects.t) : response * store :=
  match calculateExpiry (Effects.now_expiry eff) validityMinutes with
  | None => (internal_error "Failed to create short URL", db)
  | Some expiryDate =>
      let urlEntry := new_entry url finalShortcode expiryDate eff in
      let shortLink :=
        or_default protocol "http" ++ "://"
        ++ or_default host ("localhost:" ++ PORT) ++ "/" ++ finalShortcode in
      (Json 201 (CreatedBody shortLink expiryDate),
       <[finalShortcode := urlEntry]> db)
  end.

(** [POST /shorturls]. *)
Definition createAlias (fuel : nat) (db : store) (body : Body.t)
    (protocol host : option string) (eff : Effects.t)
  : option (response * store) :=
  if negb (truthy (Body.url body)) then Some (url_required, db)
  else
    let url := or_default (Body.url body) "" in
    if negb (isURL url) then Some (invalid_url, db)
    else
      match validityMinutes_of (Body.validity body) with
      | inl early => Some (early, db)
      | inr validityMinutes =>
          match finalShortcode_of fuel db (Body.shortcode body)
                  (Effects.random eff) with
          | None => None
          | Some (inl early) => Some (early, db)
          | Some (inr finalShortcode) =>
              Some (store_entry db url validityMinutes finalShortcode
                      protocol host eff)
          end
      end.

(** The projection of a click in the statistics. *)
Definition detail_of (click : Click.t) : Detail.t :=
  {| Detail.timestamp := Click.timestamp click;
     Detail.referer := Click.referer click;
     Detail.userAgent := Click.userAgent click;
     Detail.location := Click.location click |}.

(** [GET /shorturls/:shortcode]. *)
Definition getStatistics (db : store) (shortcode : string) : response * store :=
  if negb (isValidShortcode shortcode) then (invalid_shortcode, db)
  else
    match db !! shortcode with
    | None => (not_found, db)
    | Some urlEntry =>
        let statistics :=
          {| Stats.totalClicks := Entry.clickCount urlEntry;
             Stats.originalUrl := Entry.originalUrl urlEntry;
             Stats.creationDate := Entry.createdAt urlEntry;
             Stats.expiryDate := Entry.expiry urlEntry;
             Stats.clickDetails := map detail_of (Entry.clicks urlEntry) |} in
        (Json 200 (StatisticsBody statistics), db)
    end.

(** The [clickData] of a request; [now] is the reading of its timestamp. *)
Definition clickData_of (req : Req.t) (now : Z) : Click.t :=
  {| Click.timestamp := now;
     Click.userAgent := or_default (Req.user_agent req) "Unknown";
     Click.referer := or_default (Req.referer req) "Direct";
     Click.ip := or_default (or_else (Req.ip req) (Req.remoteAddress req))
                   "Unknown";
     Click.location :=
       getLocationFromIP (or_else (Req.ip req) (Req.remoteAddress req)) |}.

(** [urlEntry.clickCount++; urlEntry.clicks.push(clickData);] *)
Definition record_click (urlEntry : Entry.t) (clickData : Click.t) : Entry.t :=
  {| Entry.id := Entry.id urlEntry;
     Entry.originalUrl := Entry.originalUrl urlEntry;
     Entry.shortcode := Entry.shortcode urlEntry;
     Entry.expiry := Entry.expiry urlEntry;
     Entry.createdAt := Entry.createdAt urlEntry;
     Entry.clickCount := Entry.clickCount urlEntry + 1;
     Entry.clicks := Entry.clicks urlEntry ++ [clickData] |}.

(** [GET /:shortcode]; [now_check] is the reading of [isExpired],
    [now_click] the reading of the click's timestamp. *)
Definition resolve (db : store) (shortcode : string) (req : Req.t)
    (now_check now_click : Z) : response * store :=
  if negb (isValidShortcode shortcode) then (invalid_shortcode, db)
  else
    match db !! shortcode with
    | None => (not_found, db)
    | Some urlEntry =>
        if isExpired now_check (Entry.expiry urlEntry) then (expired, db)
        else
          let urlEntry' := record_click urlEntry (clickData_of req now_click) in
          (Redirect (Entry.originalUrl urlEntry'),
           <[shortcode := urlEntry']> db)
    end.

(** ** The service as a transition system *)

Inductive request :=
  | PostShorturls (body : Body.t) (protocol host : option string)
      (eff : Effects.t)
  | GetStatistics (shortcode : string)
  | GetShortcode (shortcode : string) (req : Req.t) (now_check now_click : Z).

(** One handled request: the response and the store it leaves.  A creation
    is a step once its generation loop has returned. *)
Inductive step : store -> request -> response -> store -> Prop :=
  | step_create fuel db body protocol host eff res db' :
      draws_in_range (Effects.random eff) ->
      createAlias fuel db body protocol host eff = Some (res, db') ->
      step db (PostShorturls body protocol host eff) res db'
  | step_statistics db shortcode res db' :
      getStatistics db shortcode = (res, db') ->
      step db (GetStatistics shortcode) res db'
  | step_resolve db shortcode req now_check now_click res db' :
      resolve db shortcode req now_check now_click = (res, db') ->
      step db (GetShortcode shortcode req now_check now_click) res db'.

(** The stores the service can be in: it starts empty. *)
Inductive reachable : store -> Prop :=
  | reachable_empty : reachable ∅
  | reachable_step db rq res db' :
      reachable db -> step db rq res db' -> reachable db'.

(** A run of the service: the requests handled, each with its response. *)
Inductive steps : store -> list (request * response) -> store -> Prop :=
  | steps_nil db : steps db [] db
  | steps_cons db rq res db1 trace db2 :
      step db rq res db1 -> steps db1 trace db2 ->
      steps db ((rq, res) :: trace) db2.

End Handlers.

(** ** The creation handler on any JSON body *)

(** [express.json()] hands the creation handler whatever JSON the client
    sent.  A value is kept as far as the handler tells values apart.  A
    number is given by the string it converts to: on the numbers that
    [JSON.parse] yields this string names the number, the two zeros apart,
    which are both falsy and one [Map] key.  An array or an object is given
    by the string it converts to: each parsed one is a new object, truthy and
    equal to no other. *)
Inductive json :=
  | JNull
  | JBool (b : bool)
  | JNumber (text : string)
  | JString (s : string)
  | JCompound (text : string).

#[global] Instance json_eq_dec : EqDecision json.
Proof. solve_decision. Defined.

#[global] Instance json_countable : Countable json.
Proof.
  refine (inj_countable'
    (fun v => match v with
              | JNull => inl ()
              | JBool b => inr (inl b)
              | JNumber text => inr (inr (inl text))
              | JString s => inr (inr (inr (inl s)))
              | JCompound text => inr (inr (inr (inr text)))
              end)
    (fun x => match x with
              | inl _ => JNull
              | inr (inl b) => JBool b
              | inr (inr (inl text)) => JNumber text
              | inr (inr (inr (inl s))) => JString s
              | inr (inr (inr (inr text))) => JCompound text
              end) _).
  intros []; reflexivity.
Defined.

(** Truthiness of a field of the body; [None] is [undefined]. *)
Definition json_truthy (v : option json) : bool :=
  match v with
  | None => false
  | Some JNull => false
  | Some (JBool b) => b
  | Some (JNumber text) => negb (String.eqb text "0")
  | Some (JString s) => negb (String.eqb s "")
  | Some (JCompound _) => true
  end.

(** The field when it is truthy. *)
Definition truthy_value (v : option json) : option json :=
  if json_truthy v then v else None.

(** The string a value converts to, in a template literal or as the argument
    of [RegExp.prototype.test]. *)
Definition json_text (v : json) : string :=
  match v with
  | JNull => "null"
  | JBool true => "true"
  | JBool false => "false"
  | JNumber text => text
  | JString s => s
  | JCompound text => text
  end.

(** The JSON body of [POST /shorturls], whatever its fields hold. *)
Module RawBody.
Record t := {
  url : option json;
  validity : validity_field;
  shortcode : option json
}.
End RawBody.

(** An [urlEntry] whose shortcode is no string. *)
Module RawEntry.
Record t := {
  id : string;
  originalUrl : string;
  shortcode : json;
  expiry : Z;
  createdAt : Z;
  clickCount : Z;
  clicks : list Click.t
}.
End RawEntry.

(** [urlDatabase] with keys of every type.  A [Map] compares keys by
    SameValueZero, which equates a string with strings only: the entries
    under string keys are a [store], the part that the two GET handlers can
    look up.  [others] holds the entries under the keys that are neither
    strings nor objects.  An object key is equal to itself only, and no later
    request can present the same object: [objects] lists the entries set
    under such keys. *)
Module Database.
Record t := {
  strings : store;
  others : gmap json RawEntry.t;
  objects : list RawEntry.t
}.
End Database.

(** [urlDatabase.has] *)
Definition has_key (db : Database.t) (key : json) : bool :=
  match key with
  | JString s => has (Database.strings db) s
  | JCompound _ => false
  | _ =>
      match Database.others db !! key with
      | Some _ => true
      | None => false
      end
  end.

(** The [urlEntry] literal for a shortcode that is no string. *)
Definition raw_entry (url : string) (finalShortcode : json) (expiryDate : Z)
    (eff : Effects.t) : RawEntry.t :=
  {| RawEntry.id := Effects.uuid eff;
     RawEntry.originalUrl := url;
     RawEntry.shortcode := finalShortcode;
     RawEntry.expiry := expiryDate;
     RawEntry.createdAt := Effects.now_created eff;
     RawEntry.clickCount := 0;
     RawEntry.clicks := [] |}.

(** The database with another string-keyed part. *)
Definition on_strings (db : Database.t) (strings : store) : Database.t :=
  {| Database.strings := strings;
     Database.others := Database.others db;
     Database.objects := Database.objects db |}.

(** [urlDatabase.set(finalShortcode, urlEntry)] with the new [urlEntry]. *)
Definition set_entry (db : Database.t) (finalShortcode : json) (url : string)
    (expiryDate : Z) (eff : Effects.t) : Database.t :=
  match finalShortcode with
  | JString s =>
      on_strings db
        (<[s := new_entry url s expiryDate eff]> (Database.strings db))
  | JCompound _ =>
      {| Database.strings := Database.strings db;
         Database.others := Database.others db;
         Database.objects :=
           Database.objects db
           ++ [raw_entry url finalShortcode expiryDate eff] |}
  | _ =>
      {| Database.strings := Database.strings db;
         Database.others :=
           <[finalShortcode := raw_entry url finalShortcode expiryDate eff]>
             (Database.others db);
         Database.objects := Database.objects db |}
  end.

Section JsonHandlers.

Variable isURL : string -> bool.
Variable PORT : string.

(** Expiry, entry, insertion and the 201 response, for a shortcode of any
    type: the link holds the string it converts to. *)
Definition store_json (db : Database.t) (url : string) (validityMinutes : Z)
    (finalShortcode : json) (protocol host : option string)
    (eff : Effects.t) : response * Database.t :=
  match calculateExpiry (Effects.now_expiry eff) validityMinutes with
  | None => (internal_error "Failed to create short URL", db)
  | Some expiryDate =>
      let shortLink :=
        or_default protocol "http" ++ "://"
        ++ or_default host ("localhost:" ++ PORT) ++ "/"
        ++ json_text finalShortcode in
      (Json 201 (CreatedBody shortLink expiryDate),
       set_entry db finalShortcode url expiryDate eff)
  end.

(** [POST /shorturls] on any body.  [validator.isURL] asserts that its
    argument is a string and throws a [TypeError] on any other value; the
    handler's [catch] answers 500. *)
Definition createAlias_json (fuel : nat) (db : Database.t) (body : RawBody.t)
    (protocol host : option string) (eff : Effects.t)
  : option (response * Database.t) :=
  match truthy_value (RawBody.url body) with
  | None => Some (url_required, db)
  | Some (JString url) =>
      if negb (isURL url) then Some (invalid_url, db)
      else
        match validityMinutes_of (RawBody.validity body) with
        | inl early => Some (early, db)
        | inr validityMinutes =>
            match truthy_value (RawBody.shortcode body) with
            | Some shortcode =>
                if negb (isValidShortcode (json_text shortcode))
                then Some (invalid_shortcode, db)
                else if has_key db shortcode then Some (shortcode_exists, db)
                else Some (store_json db url validityMinutes shortcode
                             protocol host eff)
            | None =>
                match generateUnique fuel (Database.strings db)
                        (Effects.random eff) 0 with
                | Some finalShortcode =>
                    Some (store_json db url validityMinutes
                            (JString finalShortcode) protocol host eff)
                | None => None
                end
            end
        end
  | Some _ => Some (internal_error "Failed to create short URL", db)
  end.

(** The requests of the service, the creation with any body. *)
Inductive json_request :=
  | JsonPost (body : RawBody.t) (protocol host : option string)
      (eff : Effects.t)
  | JsonGetStatistics (shortcode : string)
  | JsonGetShortcode (shortcode : string) (req : Req.t)
      (now_check now_click : Z).

(** One handled request.  A path parameter is a string: the GET handlers
    read and write the string-keyed part. *)
Inductive json_step
  : Database.t -> json_request -> response -> Database.t -> Prop :=
  | json_step_create fuel db body protocol host eff res db' :
      draws_in_range (Effects.random eff) ->
      createAlias_json fuel db body protocol host eff = Some (res, db') ->
      json_step db (JsonPost body protocol host eff) res db'
  | json_step_statistics db shortcode res strings' :
      getStatistics (Database.strings db) shortcode = (res, strings') ->
      json_step db (JsonGetStatistics shortcode) res (on_strings db strings')
  | json_step_resolve db shortcode req now_check now_click res strings' :
      resolve (Database.strings db) shortcode req now_check now_click
      = (res, strings') ->
      json_step db (JsonGetShortcode shortcode req now_check now_click) res
        (on_strings db strings').

Inductive json_steps
  : Database.t -> list (json_request * response) -> Database.t -> Prop :=
  | json_steps_nil db : json_steps db [] db
  | json_steps_cons db rq res db1 trace db2 :
      json_step db rq res db1 -> json_steps db1 trace db2 ->
      json_steps db ((rq, res) :: trace) db2.

End JsonHandlers.

(** The database of the service when it starts. *)
Definition empty_database : Database.t :=
  {| Database.strings := ∅; Database.others := ∅; Database.objects := [] |}.

(** A body of strings as a JSON body. *)
Definition json_body (body : Body.t) : RawBody.t :=
  {| RawBody.url := JString <$> Body.url body;
     RawBody.validity := Body.validity body;
     RawBody.shortcode := JString <$> Body.shortcode body |}.

(** The body of strings that the creation handler cannot tell from a JSON
    body whose url is a string and whose shortcode is a string or falsy. *)
Definition string_body (url : string) (body : RawBody.t) : Body.t :=
  {| Body.url := Some url;
     Body.validity := RawBody.validity body;
     Body.shortcode :=
       match truthy_value (RawBody.shortcode body) with
       | Some (JString s) => Some s
       | _ => None
       end |}.

(** * The logging middleware and the Log calls of the handlers *)

(** ** Logger *)

(** [String.prototype.toLowerCase], on ASCII. *)
Definition lower_ascii (c : ascii) : ascii :=
  let n := nat_of_ascii c in
  if ((65 <=? n) && (n <=? 90))%nat then ascii_of_nat (n + 32) else c.

Fixpoint toLowerCase (s : string) : string :=
  match s with
  | EmptyString => EmptyString
  | String c s' => String (lower_ascii c) (toLowerCase s')
  end.

(** A property of the [config] object that holds a string: absent
    ([undefined]), [null] or given. *)
Inductive config_field :=
  | Absent
  | Null
  | Given (s : string).

(** The [config] argument of the constructor; [timeout] is a number when
    present. *)
Module Config.
Record t := {
  apiUrl : config_field;
  timeout : option Z;
  authToken : config_field
}.
End Config.

(** What the constructor reads of [process.env]. *)
Module Env.
Record t := {
  LOG_API_URL : option string;
  LOG_TIMEOUT : option string;
  LOG_AUTH_TOKEN : option string
}.
End Env.

(** What the logger sets of its axios instance; [baseURL] may be [null]. *)
Module Client.
Record t := {
  baseURL : option string;
  timeout : Z;
  headers : gmap string string
}.
End Client.

(** The body of a post to the log service. *)
Module Payload.
Record t := {
  stack : string;
  level : string;
  package : string;
  message : string
}.
End Payload.

(** The arguments of one [Log] call. *)
Module LogCall.
Record t := {
  stack : string;
  level : string;
  pkg : string;
  message : string
}.
End LogCall.

Section Logger.

(** The builtin [parseInt], [None] for [NaN]; the type of the data of a
    response; and [apiClient.post], which answers with the data of the
    response or fails (network error, timeout, status outside 2xx). *)
Variable parseInt : option string -> option Z.
Variable Data : Type.
Variable post : Client.t -> string -> Payload.t -> option Data.

(** The destructuring of [config], with its defaults. *)
Definition apiUrl_of (config : Config.t) (env : Env.t) : option string :=
  match Config.apiUrl config with
  | Absent => Some (or_default (Env.LOG_API_URL env) "http://20.244.56.144")
  | Null => None
  | Given s => Some s
  end.

Definition timeout_of (config : Config.t) (env : Env.t) : Z :=
  match Config.timeout config with
  | None =>
      match parseInt (Env.LOG_TIMEOUT env) with
      | Some n => if n =? 0 then 5000 else n
      | None => 5000
      end
  | Some t => t
  end.

Definition authToken_of (config : Config.t) (env : Env.t) : option string :=
  match Config.authToken config with
  | Absent =>
      if truthy (Env.LOG_AUTH_TOKEN env) then Env.LOG_AUTH_TOKEN env else None
  | Null => None
  | Given s => Some s
  end.

(** The headers literal: the spread adds [Authorization] for a truthy
    token only. *)
Definition headers_of (authToken : option string) : gmap string string :=
  if truthy authToken
  then <["Authorization" := "Bearer " ++ or_default authToken ""]>
         {[ "Content-Type" := "application/json" ]}
  else {[ "Content-Type" := "application/json" ]}.

(** [new Logger(config)]. *)
Definition new_Logger (config : Config.t) (env : Env.t) : Client.t :=
  {| Client.baseURL := apiUrl_of config env;
     Client.timeout := timeout_of config env;
     Client.headers := headers_of (authToken_of config env) |}.

(** [setAuthToken(token)]. *)
Definition setAuthToken (token : option string) (apiClient : Client.t)
  : Client.t :=
  {| Client.baseURL := Client.baseURL apiClient;
     Client.timeout := Client.timeout apiClient;
     Client.headers :=
       if truthy token
       then <["Authorization" := "Bearer " ++ or_default token ""]>
              (Client.headers apiClient)
       else delete "Authorization" (Client.headers apiClient) |}.

(** What a [Log] call posts. *)
Definition payload_of (call : LogCall.t) : Payload.t :=
  {| Payload.stack := toLowerCase (LogCall.stack call);
     Payload.level := toLowerCase (LogCall.level call);
     Payload.package := toLowerCase (LogCall.pkg call);
     Payload.message := LogCall.message call |}.

(** [Logger.Log]: the data of the response, or [null] ([None]) when the post
    fails. *)
Definition Logger_Log (apiClient : Client.t) (call : LogCall.t) : option Data :=
  match post apiClient "/evaluation-service/logs" (payload_of call) with
  | Some data => Some data
  | None => None
  end.

End Logger.

(** ** The handlers with their Log calls *)

Definition log_info (message : string) : LogCall.t :=
  {| LogCall.stack := "BACKEND"; LogCall.level := "INFO";
     LogCall.pkg := "URL_SHORTENER"; LogCall.message := message |}.

Definition log_error (message : string) : LogCall.t :=
  {| LogCall.stack := "BACKEND"; LogCall.level := "ERROR";
     LogCall.pkg := "URL_SHORTENER"; LogCall.message := message |}.

Section LoggedHandlers.

Variable isURL : string -> bool.
Variable PORT : string.

(** [POST /shorturls] with the Log calls it awaits, in order. *)
Definition createAlias_logged (fuel : nat) (db : store) (body : Body.t)
    (protocol host : option string) (eff : Effects.t)
  : option (list LogCall.t * (response * store)) :=
  let attempt :=
    log_info ("Creating short URL for: "
              ++ or_default (Body.url body) "undefined") in
  if negb (truthy (Body.url body)) then
    Some ([attempt; log_error "URL parameter missing in request"],
          (url_required, db))
  else
    let url := or_default (Body.url body) "" in
    if negb (isURL url) then
      Some ([attempt; log_error ("Invalid URL format: " ++ url)],
            (invalid_url, db))
    else
      match validityMinutes_of (Body.validity body) with
      | inl early => Some ([attempt], (early, db))
      | inr validityMinutes =>
          match finalShortcode_of fuel db (Body.shortcode body)
                  (Effects.random eff) with
          | None => None
          | Some (inl early) => Some ([attempt], (early, db))
          | Some (inr finalShortcode) =>
              match calculateExpiry (Effects.now_expiry eff)
                      validityMinutes with
              | None =>
                  Some ([attempt],
                        (internal_error "Failed to create short URL", db))
              | Some expiryDate =>
                  let urlEntry :=
                    new_entry url finalShortcode expiryDate eff in
                  let shortLink :=
                    or_default protocol "http" ++ "://"
                    ++ or_default host ("localhost:" ++ PORT) ++ "/"
                    ++ finalShortcode in
                  Some ([attempt;
                         log_info ("Successfully created short URL: "
                                   ++ shortLink)],
                        (Json 201 (CreatedBody shortLink expiryDate),
                         <[finalShortcode := urlEntry]> db))
              end
          end
      end.

(** [GET /shorturls/:shortcode] with its Log calls. *)
Definition getStatistics_logged (db : store) (shortcode : string)
  : list LogCall.t * (response * store) :=
  let request :=
    log_info ("Retrieving statistics for shortcode: " ++ shortcode) in
  if negb (isValidShortcode shortcode) then
    ([request;
      log_error ("Invalid shortcode format in statistics request: "
                 ++ shortcode)],
     (invalid_shortcode, db))
  else
    match db !! shortcode with
    | None =>
        ([request;
          log_error ("Statistics requested for non-existent shortcode: "
                     ++ shortcode)],
         (not_found, db))
    | Some urlEntry =>
        let statistics :=
          {| Stats.totalClicks := Entry.clickCount urlEntry;
             Stats.originalUrl := Entry.originalUrl urlEntry;
             Stats.creationDate := Entry.createdAt urlEntry;
             Stats.expiryDate := Entry.expiry urlEntry;
             Stats.clickDetails := map detail_of (Entry.clicks urlEntry) |} in
        ([request;
          log_info ("Statistics retrieved for " ++ shortcode
                    ++ " - Total clicks: "
                    ++ pretty (Entry.clickCount urlEntry))],
         (Json 200 (StatisticsBody statistics), db))
    end.

(** [GET /:shortcode] with its Log call. *)
Definition resolve_logged (db : store) (shortcode : string) (req : Req.t)
    (now_check now_click : Z) : list LogCall.t * (response * store) :=
  if negb (isValidShortcode shortcode) then ([], (invalid_shortcode, db))
  else
    match db !! shortcode with
    | None => ([], (not_found, db))
    | Some urlEntry =>
        if isExpired now_check (Entry.expiry urlEntry) then ([], (expired, db))
        else
          let urlEntry' := record_click urlEntry (clickData_of req now_click) in
          ([log_info ("Redirecting " ++ shortcode ++ " to "
                      ++ Entry.originalUrl urlEntry' ++ " - Click #"
                      ++ pretty (Entry.clickCount urlEntry'))],
           (Redirect (Entry.originalUrl urlEntry'),
            <[shortcode := urlEntry']> db))
    end.

(** The handler of every other route. *)
Definition route_not_found : response :=
  Json 404 (ErrorBody "Route not found"
              "The requested endpoint does not exist").

End LoggedHandlers.

(** * Vocabulary of the statements *)

(** The addresses [getLocationFromIP] answers with the unknown place: the
    absent and the empty address, the sentinel and the two loopback
    literals. *)
Definition unlocated (ip : option string) : Prop :=
  ip = None \/ ip = Some "" \/ ip = Some "Unknown" \/ ip = Some "::1"
  \/ ip = Some "127.0.0.1".

(** The [k]-th code the generation loop draws. *)
Definition nth_code (rnd : random_source) (k : nat) : string :=
  fst (generateShortCode rnd (6 * k)).

(** A [validity] that is absent or a positive integer. *)
Definition validity_ok (validity : validity_field) : Prop :=
  validity = ValidityAbsent \/ exists n, validity = ValidityInt n /\ 0 < n.

(** What a step does to the store: nothing, one fresh entry with no click,
    or one more click on one entry. *)
Inductive store_change (db : store) : request -> store -> Prop :=
  | change_none rq : store_change db rq db
  | change_insert body protocol host eff url code expiryDate :
      db !! code = None ->
      isValidShortcode code = true ->
      store_change db (PostShorturls body protocol host eff)
        (<[code := new_entry url code expiryDate eff]> db)
  | change_click shortcode req now_check now_click urlEntry :
      isValidShortcode shortcode = true ->
      db !! shortcode = Some urlEntry ->
      store_change db (GetShortcode shortcode req now_check now_click)
        (<[shortcode := record_click urlEntry (clickData_of req now_click)]> db).

(** The fields of an entry that no handler writes after the creation. *)
Definition same_identity (e e' : Entry.t) : Prop :=
  Entry.id e' = Entry.id e
  /\ Entry.originalUrl e' = Entry.originalUrl e
  /\ Entry.shortcode e' = Entry.shortcode e
  /\ Entry.createdAt e' = Entry.createdAt e
  /\ Entry.expiry e' = Entry.expiry e.

(** Two entries that differ at most in the addresses of their clicks. *)
Definition same_public (e1 e2 : Entry.t) : Prop :=
  same_identity e1 e2
  /\ Entry.clickCount e2 = Entry.clickCount e1
  /\ map detail_of (Entry.clicks e2) = map detail_of (Entry.clicks e1).

(** Two stores with the same keys and, under each, such entries. *)
Definition address_blind (db1 db2 : store) : Prop :=
  forall k, option_Forall2 same_public (db1 !! k) (db2 !! k).

(** Two redirect requests that differ at most in the requester's address,
    and resolve to the same place. *)
Definition same_but_address (req1 req2 : Req.t) : Prop :=
  Req.user_agent req1 = Req.user_agent req2
  /\ Req.referer req1 = Req.referer req2
  /\ getLocationFromIP (or_else (Req.ip req1) (Req.remoteAddress req1))
     = getLocationFromIP (or_else (Req.ip req2) (Req.remoteAddress req2)).

(** Draws that collide [cap] times with the code ["aaaaaa"] and then give
    ["bbbbbb"]. *)
Definition colliding_draws (cap : nat) : random_source :=
  fun i => if (i <? 6 * cap)%nat then 0%nat else 1%nat.

(** The clicks a run records for the shortcode [k]: one for each redirect
    request of [k] that was answered with a redirect, in the order of the
    run. *)
Fixpoint redirect_clicks (k : string) (trace : list (request * response))
  : list Click.t :=
  match trace with
  | [] => []
  | (GetShortcode shortcode req _ now_click, Redirect _) :: trace' =>
      if String.eqb shortcode k
      then clickData_of req now_click :: redirect_clicks k trace'
      else redirect_clicks k trace'
  | _ :: trace' => redirect_clicks k trace'
  end.

(** A run that holds no redirect request. *)
Definition no_redirect_request (trace : list (request * response)) : Prop :=
  Forall (fun step =>
            match fst step with
            | GetShortcode _ _ _ _ => False
            | _ => True
            end) trace.

(** The clicks and the counter the store holds for [k]: none and zero when
    [k] is no key. *)
Definition clicks_at (db : store) (k : string) : list Click.t :=
  from_option Entry.clicks [] (db !! k).

Definition count_at (db : store) (k : string) : Z :=
  from_option Entry.clickCount 0 (db !! k).

(** The [n] characters that [append_chars] adds from cursor [pos]. *)
Fixpoint chars_of (rnd : random_source) (pos n : nat) : string :=
  match n with
  | O => ""
  | S n' => charAt chars (rnd pos) ++ chars_of rnd (S pos) n'
  end.

(** The number of 201 responses of a run. *)
Definition created_count (trace : list (request * response)) : nat :=
  List.length (filter (fun step => status_of (snd step) = 201) trace).

(** The polynomial that [ip_hash] wraps: [c0 * 31^(n-1) + ... + c(n-1)] over
    the character codes. *)
Definition poly31_step (a : Z) (b : ascii) : Z :=
  31 * a + Z.of_nat (nat_of_ascii b).

Definition poly31 (s : string) : Z :=
  fold_left poly31_step (list_ascii_of_string s) 0.

(** The clicks of a store are well formed: no field is empty, and the place
    is the resolver's answer for the stored address. *)
Definition click_ok (click : Click.t) : Prop :=
  Click.userAgent click <> ""
  /\ Click.referer click <> ""
  /\ Click.ip click <> ""
  /\ Click.location click = getLocationFromIP (Some (Click.ip click)).

(** ** A concrete run, used by the examples *)

Module Demo.

(** A stand-in for [validator.isURL] with [require_protocol]: it accepts the
    strings that start with a web scheme. *)
Definition isURL (url : string) : bool :=
  String.prefix "http://" url || String.prefix "https://" url.

Definition PORT : string := "3000".

Definition effects : Effects.t :=
  {| Effects.now_expiry := 1700000000000;
     Effects.now_created := 1700000000000;
     Effects.uuid := "0b9c8f6e-5d1a-4c3b-9e2f-7a6b5c4d3e2f";
     Effects.random := fun _ => 0%nat |}.

(** The second clock reading comes a minute after the first. *)
Definition late_effects : Effects.t :=
  {| Effects.now_expiry := 1700000000000;
     Effects.now_created := 1700000060000;
     Effects.uuid := "0b9c8f6e-5d1a-4c3b-9e2f-7a6b5c4d3e2f";
     Effects.random := fun _ => 0%nat |}.

(** The first [cap] generated codes are ["aaaaaa"]. *)
Definition colliding_effects (cap : nat) : Effects.t :=
  {| Effects.now_expiry := 1700000000000;
     Effects.now_created := 1700000000000;
     Effects.uuid := "7c1d2e3f-4a5b-4c6d-8e7f-9a0b1c2d3e4f";
     Effects.random := colliding_draws cap |}.

(** One minute of validity and a custom shortcode. *)
Definition body : Body.t :=
  {| Body.url := Some "https://example.com/page";
     Body.validity := ValidityInt 1;
     Body.shortcode := Some "abc123" |}.

(** The default validity, and an empty custom shortcode. *)
Definition body_empty_shortcode : Body.t :=
  {| Body.url := Some "https://example.com/page";
     Body.validity := ValidityAbsent;
     Body.shortcode := Some "" |}.

(** The default validity, and no custom shortcode. *)
Definition body_generated : Body.t :=
  {| Body.url := Some "https://example.com/other";
     Body.validity := ValidityAbsent;
     Body.shortcode := None |}.

Definition req : Req.t :=
  {| Req.user_agent := Some "curl/8.0";
     Req.referer := None;
     Req.ip := Some "203.0.113.7";
     Req.remoteAddress := Some "203.0.113.7" |}.

(** The same request from another address of the same place. *)
Definition req_elsewhere : Req.t :=
  {| Req.user_agent := Some "curl/8.0";
     Req.referer := None;
     Req.ip := Some "10.0.0.2";
     Req.remoteAddress := Some "10.0.0.2" |}.

(** The store after the creation of [body]. *)
Definition created : store :=
  {[ "abc123" := new_entry "https://example.com/page" "abc123"
                   1700000060000 effects ]}.

(** The store after one redirect, taken one second after the creation. *)
Definition clicked : store :=
  {[ "abc123" := record_click
                   (new_entry "https://example.com/page" "abc123"
                      1700000060000 effects)
                   (clickData_of req 1700000001000) ]}.

(** The store after the creation of [body_empty_shortcode]. *)
Definition generated : store :=
  {[ "aaaaaa" := new_entry "https://example.com/page" "aaaaaa"
                   1700001800000 effects ]}.

(** A number as custom shortcode. *)
Definition body_number_shortcode : RawBody.t :=
  {| RawBody.url := Some (JString "https://example.com/page");
     RawBody.validity := ValidityInt 1;
     RawBody.shortcode := Some (JNumber "123456") |}.

(** A number as url. *)
Definition body_number_url : RawBody.t :=
  {| RawBody.url := Some (JNumber "42");
     RawBody.validity := ValidityAbsent;
     RawBody.shortcode := None |}.

(** The database after the creation of [body_number_shortcode]. *)
Definition numbered : Database.t :=
  set_entry empty_database (JNumber "123456") "https://example.com/page"
    1700000060000 effects.

End Demo.

(** The body of a post as the log service expects it: the fixed stack and
    package and one of the two levels, in lower case. *)
Definition payload_ok (payload : Payload.t) : Prop :=
  Payload.stack payload = "backend"
  /\ Payload.package payload = "url_shortener"
  /\ (Payload.level payload = "info" \/ Payload.level payload = "error").

(** The [config] a token stands for: a truthy token is given, a falsy one is
    [null]. *)
Definition config_with_token (config : Config.t) (token : option string)
  : Config.t :=
  {| Config.apiUrl := Config.apiUrl config;
     Config.timeout := Config.timeout config;
     Config.authToken :=
       if truthy token then Given (or_default token "") else Null |}.

(** The run of the examples: the creation of [Demo.body], then one redirect
    a second later. *)
Definition demo_trace : list (request * response) :=
  [ (PostShorturls Demo.body (Some "http") (Some "sho.rt") Demo.effects,
     Json 201 (CreatedBody "http://sho.rt/abc123" 1700000060000));
    (GetShortcode "abc123" Demo.req 1700000001000 1700000001000,
     Redirect "https://example.com/page") ].

(** * Properties *)

(** ** Leaf functions *)

Lemma charAt_chars_alnum (d : nat) :
  (d < String.length chars)%nat ->
  exists c, charAt chars d = String c EmptyString /\ is_alnum c = true.
Proof.
  intros Hd.
  do 62 (destruct d as [|d]; [eexists; split; reflexivity|]).
  simpl in Hd. lia.
Qed.

Lemma append_cons (c : ascii) (s1 s2 : string) :
  String c s1 ++ s2 = String c (s1 ++ s2).
Proof. reflexivity. Qed.

Lemma length_append (s1 s2 : string) :
  String.length (s1 ++ s2) = (String.length s1 + String.length s2)%nat.
Proof.
  induction s1 as [|c s1 IH]; [reflexivity|].
  rewrite append_cons. simpl. now rewrite IH.
Qed.

Lemma append_chars_length rnd n : forall pos result,
  draws_in_range rnd ->
  String.length (append_chars rnd pos n result)
  = (String.length result + n)%nat.
Proof.
  induction n as [|n IH]; intros pos result Hr; simpl.
  - lia.
  - rewrite IH by assumption.
    destruct (charAt_chars_alnum (rnd pos) (Hr pos)) as [c [-> _]].
    rewrite length_append. simpl. lia.
Qed.

Lemma forallb_alnum_append (s1 s2 : string) :
  forallb is_alnum (list_ascii_of_string (s1 ++ s2))
  = forallb is_alnum (list_ascii_of_string s1)
    && forallb is_alnum (list_ascii_of_string s2).
Proof.
  induction s1 as [|c s1 IH]; [reflexivity|].
  rewrite append_cons. simpl. rewrite IH. now rewrite andb_assoc.
Qed.

Lemma append_chars_alnum rnd n : forall pos result,
  draws_in_range rnd ->
  forallb is_alnum (list_ascii_of_string result) = true ->
  forallb is_alnum (list_ascii_of_string (append_chars rnd pos n result))
  = true.
Proof.
  induction n as [|n IH]; intros pos result Hr Hres; simpl.
  - assumption.
  - apply IH; [assumption|].
    rewrite forallb_alnum_append, Hres.
    destruct (charAt_chars_alnum (rnd pos) (Hr pos)) as [c [-> Hc]].
    simpl. now rewrite Hc.
Qed.

(** A generated code has six characters of the alphabet, and so passes the
    format check. *)
Lemma generateShortCode_valid rnd pos :
  draws_in_range rnd ->
  String.length (fst (generateShortCode rnd pos)) = 6%nat
  /\ isValidShortcode (fst (generateShortCode rnd pos)) = true.
Proof.
  intros Hr. unfold generateShortCode, isValidShortcode. cbn [fst].
  rewrite append_chars_length by assumption.
  rewrite append_chars_alnum by (assumption || reflexivity).
  split; reflexivity.
Qed.

Lemma append_chars_ext rnd rnd' n : forall pos result,
  (forall j, (j < n)%nat -> rnd (pos + j)%nat = rnd' (pos + j)%nat) ->
  append_chars rnd pos n result = append_chars rnd' pos n result.
Proof.
  induction n as [|n IH]; intros pos result H; [reflexivity|].
  simpl. specialize (H 0%nat ltac:(lia)) as H0.
  rewrite Nat.add_0_r in H0. rewrite H0. apply IH.
  intros j Hj. specialize (H (S j) ltac:(lia)).
  now rewrite Nat.add_succ_r in H.
Qed.

Lemma to_int32_range z : - 2 ^ 31 <= to_int32 z < 2 ^ 31.
Proof.
  unfold to_int32.
  pose proof (Z.mod_pos_bound (z + 2 ^ 31) (2 ^ 32) ltac:(lia)). lia.
Qed.

(** The hash is a signed 32-bit integer at every step. *)
Lemma ip_hash_int32 (s : string) : - 2 ^ 31 <= ip_hash s < 2 ^ 31.
Proof.
  unfold ip_hash.
  assert (H : forall l a, - 2 ^ 31 <= a < 2 ^ 31 ->
            - 2 ^ 31 <= fold_left hash_step l a < 2 ^ 31).
  { induction l as [|c l IH]; intros a Ha; simpl; [exact Ha|].
    apply IH. unfold hash_step. apply to_int32_range. }
  apply H. lia.
Qed.


Lemma has_false db k : has db k = false <-> db !! k = None.
Proof.
  unfold has. destruct (db !! k); split; intros H; congruence.
Qed.

(** The defaults of the click: an absent or empty header gives the
    sentinel. *)
Lemma or_default_spec (v : option string) (d : string) :
  (truthy v = false -> or_default v d = d)
  /\ (forall s, v = Some s -> s <> "" -> or_default v d = s).
Proof.
  split.
  - destruct v as [s|]; simpl; [|reflexivity].
    destruct (String.eqb_spec s ""); [reflexivity|discriminate].
  - intros s -> Hs. simpl.
    destruct (String.eqb_spec s ""); [contradiction|reflexivity].
Qed.

(** ** LocationResolver *)

(** Loopback addresses other than the two literals are located: 127.0.0.2
    of the loopback block 127.0.0.0/8, the IPv4-mapped form of 127.0.0.1
    (the address a dual-stack listener reports for a local IPv4 client) and
    the long form of ::1. *)
Lemma loopback_addresses_are_located :
  getLocationFromIP (Some "127.0.0.2")
  = {| country := "United Kingdom"; city := "London" |}
  /\ getLocationFromIP (Some "::ffff:127.0.0.1")
     = {| country := "United Kingdom"; city := "London" |}
  /\ getLocationFromIP (Some "0:0:0:0:0:0:0:1")
     = {| country := "United States"; city := "New York" |}.
Proof. repeat split; vm_compute; reflexivity. Qed.

(** C8, as the code has it.
    The location resolver is a function of the address alone.  The
    absent, empty, ["Unknown"], ["::1"] and ["127.0.0.1"] addresses yield
    (Unknown, Unknown).  Every other address [s], any other spelling of a
    loopback address included, yields the entry of the
    table of five places at index [|ip_hash s| mod 5], where [ip_hash] folds
    [((a << 5) - a) + code], wrapped to 32 bits, over the characters of [s]; equal
    addresses yield equal places. *)
Theorem getLocationFromIP_spec (ip : option string) :
  List.length mockLocations = 5%nat
  /\ (unlocated ip -> getLocationFromIP ip = unknownLocation)
  /\ (~ unlocated ip ->
      exists s, ip = Some s
        /\ 0 <= Z.abs (ip_hash s) mod 5 < 5
        /\ getLocationFromIP ip
           = List.nth (Z.to_nat (Z.abs (ip_hash s) mod 5)) mockLocations
               unknownLocation
        /\ In (getLocationFromIP ip) mockLocations)
  /\ (forall ip', ip' = ip -> getLocationFromIP ip' = getLocationFromIP ip).
Proof.
  split; [reflexivity|]. split; [|split].
  - intros [-> | [-> | [-> | [-> | ->]]]]; reflexivity.
  - intros Hn. destruct ip as [s|]; [|exfalso; apply Hn; left; reflexivity].
    exists s. split; [reflexivity|].
    assert (Hb : 0 <= Z.abs (ip_hash s) mod 5 < 5) by (apply Z.mod_pos_bound; lia).
    split; [exact Hb|].
    assert (Hsel : getLocationFromIP (Some s)
              = List.nth (Z.to_nat (Z.abs (ip_hash s) mod 5)) mockLocations
                  unknownLocation).
    { unfold getLocationFromIP.
      destruct (String.eqb_spec s "") as [->|_];
        [exfalso; apply Hn; right; left; reflexivity|].
      destruct (String.eqb_spec s "Unknown") as [->|_];
        [exfalso; apply Hn; right; right; left; reflexivity|].
      destruct (String.eqb_spec s "::1") as [->|_];
        [exfalso; apply Hn; right; right; right; left; reflexivity|].
      destruct (String.eqb_spec s "127.0.0.1") as [->|_];
        [exfalso; apply Hn; right; right; right; right; reflexivity|].
      reflexivity. }
    split; [exact Hsel|].
    rewrite Hsel. apply nth_In.
    change (List.length mockLocations) with 5%nat. lia.
  - intros ip' ->. reflexivity.
Qed.

Example getLocationFromIP_documentation_address :
  ip_hash "203.0.113.7" = 1392238757
  /\ getLocationFromIP (Some "203.0.113.7")
     = {| country := "Germany"; city := "Berlin" |}.
Proof. split; vm_compute; reflexivity. Qed.

(** ** Resolution *)

(** Every return of [resolve]: a refusal that leaves the store alone, or a
    redirect that records one click on the resolved entry. *)
Lemma resolve_inv db shortcode req now_check now_click res db' :
  resolve db shortcode req now_check now_click = (res, db') ->
  (is_Some (error_of res) /\ db' = db)
  \/ exists urlEntry,
       isValidShortcode shortcode = true
       /\ db !! shortcode = Some urlEntry
       /\ now_check <= Entry.expiry urlEntry
       /\ res = Redirect (Entry.originalUrl urlEntry)
       /\ db' = <[shortcode :=
                   record_click urlEntry (clickData_of req now_click)]> db.
Proof.
  unfold resolve. destruct (isValidShortcode shortcode) eqn:Hv; simpl;
    [|intros [= <- <-]; left; split; [eexists|]; reflexivity].
  destruct (db !! shortcode) as [urlEntry|] eqn:Hl;
    [|intros [= <- <-]; left; split; [eexists|]; reflexivity].
  unfold isExpired.
  destruct (Z.gtb_spec now_check (Entry.expiry urlEntry));
    intros [= <- <-]; [left; split; [eexists|]; reflexivity|].
  right. exists urlEntry. repeat split; try assumption; reflexivity.
Qed.

(** C1.  [resolve] checks in this order: a shortcode that fails the format
    check is a ValidationError; else a shortcode with no record is a
    NotFoundError; else a check instant strictly after the record's expiry is
    an ExpiredError, and each failure leaves the store as it was.  Otherwise
    (the check instant may equal the expiry) the record gets exactly one more
    click, whose timestamp is the click reading, whose user agent and referer
    default to "Unknown" and "Direct" and whose location is the resolver's
    answer for the requester's address; its counter grows by one, and the
    redirect goes to the record's original URL. *)
Theorem resolve_outcome (db : store) (shortcode : string) (req : Req.t)
    (now_check now_click : Z) :
  let out := resolve db shortcode req now_check now_click in
  (isValidShortcode shortcode = false ->
     error_of (fst out) = Some ValidationError /\ snd out = db)
  /\ (isValidShortcode shortcode = true -> db !! shortcode = None ->
     error_of (fst out) = Some NotFoundError /\ snd out = db)
  /\ (forall urlEntry,
     isValidShortcode shortcode = true -> db !! shortcode = Some urlEntry ->
     now_check > Entry.expiry urlEntry ->
     error_of (fst out) = Some ExpiredError /\ snd out = db)
  /\ (forall urlEntry,
     isValidShortcode shortcode = true -> db !! shortcode = Some urlEntry ->
     now_check <= Entry.expiry urlEntry ->
     exists click urlEntry',
       out = (Redirect (Entry.originalUrl urlEntry),
              <[shortcode := urlEntry']> db)
       /\ Entry.clicks urlEntry' = (Entry.clicks urlEntry ++ [click])%list
       /\ Entry.clickCount urlEntry' = Entry.clickCount urlEntry + 1
       /\ Click.timestamp click = now_click
       /\ Click.userAgent click = or_default (Req.user_agent req) "Unknown"
       /\ Click.referer click = or_default (Req.referer req) "Direct"
       /\ Click.location click
          = getLocationFromIP (or_else (Req.ip req) (Req.remoteAddress req))).
Proof.
  intros out. subst out. unfold resolve.
  split; [|split; [|split]].
  - intros Hv. rewrite Hv. split; reflexivity.
  - intros Hv Hl. rewrite Hv, Hl. split; reflexivity.
  - intros urlEntry Hv Hl Hgt. rewrite Hv, Hl. unfold isExpired.
    destruct (Z.gtb_spec now_check (Entry.expiry urlEntry)); [|lia].
    split; reflexivity.
  - intros urlEntry Hv Hl Hle. rewrite Hv, Hl. unfold isExpired.
    destruct (Z.gtb_spec now_check (Entry.expiry urlEntry)); [lia|].
    exists (clickData_of req now_click),
           (record_click urlEntry (clickData_of req now_click)).
    repeat split; reflexivity.
Qed.
(** ** Creation *)

(** Closes the case of an early return: an error response, the store as it
    was. *)
Ltac refused :=
  left; split; [discriminate|split; [eexists; reflexivity|reflexivity]].

Section Creation.

Variable isURL : string -> bool.
Variable PORT : string.

Lemma generateUnique_S fuel db rnd k :
  generateUnique (S fuel) db rnd (6 * k)
  = if has db (nth_code rnd k)
    then generateUnique fuel db rnd (6 * S k)
    else Some (nth_code rnd k).
Proof.
  replace (6 * S k)%nat with (6 * k + 6)%nat by lia. reflexivity.
Qed.

Lemma generateUnique_shift fuel db rnd : forall k code,
  generateUnique fuel db rnd (6 * k) = Some code ->
  exists n, (k <= n < k + fuel)%nat /\ code = nth_code rnd n
    /\ has db code = false
    /\ forall i, (k <= i < n)%nat -> has db (nth_code rnd i) = true.
Proof.
  induction fuel as [|fuel IH]; intros k code H; [discriminate|].
  rewrite generateUnique_S in H.
  destruct (has db (nth_code rnd k)) eqn:Hhas.
  - destruct (IH _ _ H) as (n & Hn & Hc & Hf & Hcol).
    exists n. repeat split; [lia|lia|assumption|assumption|].
    intros i Hi. destruct (decide (i = k)) as [->|Hne].
    + exact Hhas.
    + apply Hcol. lia.
  - injection H as <-. exists k. repeat split; [lia|lia|exact Hhas|].
    intros i Hi. lia.
Qed.

(** The loop returns the first drawn code that the store does not hold, as
    soon as the fuel covers the collisions before it. *)
Lemma generateUnique_after_collisions fuel db rnd : forall k n,
  (k <= n < k + fuel)%nat ->
  (forall i, (k <= i < n)%nat -> has db (nth_code rnd i) = true) ->
  has db (nth_code rnd n) = false ->
  generateUnique fuel db rnd (6 * k) = Some (nth_code rnd n).
Proof.
  induction fuel as [|fuel IH]; intros k n Hn Hcol Hfresh; [lia|].
  rewrite generateUnique_S. destruct (decide (k = n)) as [->|Hne].
  - rewrite Hfresh. reflexivity.
  - rewrite (Hcol k) by lia.
    apply IH; [lia| |assumption].
    intros i Hi. apply Hcol. lia.
Qed.

(** More fuel does not change what the loop returns. *)
Lemma generateUnique_fuel_mono fuel fuel' db rnd : forall pos code,
  generateUnique fuel db rnd pos = Some code -> (fuel <= fuel')%nat ->
  generateUnique fuel' db rnd pos = Some code.
Proof.
  revert fuel'. induction fuel as [|fuel IH]; intros fuel' pos code H Hle;
    [discriminate|].
  destruct fuel' as [|fuel']; [lia|].
  cbn [generateUnique] in *.
  destruct (generateShortCode rnd pos) as [c pos'].
  destruct (has db c); [|exact H].
  apply IH; [exact H|lia].
Qed.

Lemma finalShortcode_of_inr fuel db shortcode rnd code :
  finalShortcode_of fuel db shortcode rnd = Some (inr code) ->
  db !! code = None
  /\ (truthy shortcode = true ->
      shortcode = Some code /\ isValidShortcode code = true)
  /\ (truthy shortcode = false ->
      exists n, (n < fuel)%nat /\ code = nth_code rnd n
        /\ forall i, (i < n)%nat -> has db (nth_code rnd i) = true).
Proof.
  unfold finalShortcode_of. destruct (truthy shortcode) eqn:Ht.
  - destruct shortcode as [c|]; [|discriminate]. simpl in Ht. simpl.
    destruct (String.eqb c ""); [discriminate|].
    destruct (isValidShortcode c) eqn:Hv; simpl; [|discriminate].
    destruct (has db c) eqn:Hh; [discriminate|].
    intros [= <-]. split; [now apply has_false|].
    split; [intros _; split; [reflexivity|exact Hv]|discriminate].
  - destruct (generateUnique fuel db rnd 0) as [c|] eqn:Hg; [|discriminate].
    intros [= <-]. change 0%nat with (6 * 0)%nat in Hg.
    destruct (generateUnique_shift _ _ _ _ _ Hg) as (n & Hn & Hc & Hf & Hcol).
    split; [now apply has_false|]. split; [discriminate|].
    intros _. exists n. split; [lia|]. split; [exact Hc|].
    intros i Hi. apply Hcol. lia.
Qed.

Lemma finalShortcode_of_inl fuel db shortcode rnd early :
  finalShortcode_of fuel db shortcode rnd = Some (inl early) ->
  early = invalid_shortcode \/ early = shortcode_exists.
Proof.
  unfold finalShortcode_of. destruct (truthy shortcode).
  - destruct (isValidShortcode (or_default shortcode "")); simpl.
    + destruct (has db (or_default shortcode "")); [|discriminate].
      intros [= <-]. right; reflexivity.
    + intros [= <-]. left; reflexivity.
  - destruct (generateUnique fuel db rnd 0); discriminate.
Qed.

Lemma finalShortcode_of_valid fuel db shortcode rnd code :
  draws_in_range rnd ->
  finalShortcode_of fuel db shortcode rnd = Some (inr code) ->
  isValidShortcode code = true.
Proof.
  intros Hr H. destruct (finalShortcode_of_inr _ _ _ _ _ H) as (_ & Hc & Hg).
  destruct (truthy shortcode) eqn:Ht.
  - now apply Hc.
  - destruct (Hg eq_refl) as (n & _ & -> & _).
    now apply generateShortCode_valid.
Qed.

Lemma validityMinutes_of_inr validity v :
  validityMinutes_of validity = inr v ->
  0 < v
  /\ (validity = ValidityAbsent /\ v = 30 \/ validity = ValidityInt v).
Proof.
  destruct validity as [|n|]; simpl.
  - intros [= <-]. split; [lia|left; split; reflexivity].
  - destruct (Z.leb_spec n 0); [discriminate|].
    intros [= <-]. split; [lia|right; reflexivity].
  - discriminate.
Qed.

Lemma validityMinutes_of_inl validity early :
  validityMinutes_of validity = inl early -> early = invalid_validity.
Proof.
  destruct validity as [|n|]; simpl; [discriminate| |congruence].
  destruct (n <=? 0); congruence.
Qed.

Lemma validity_ok_minutes validity :
  validity_ok validity -> exists v, validityMinutes_of validity = inr v.
Proof.
  intros [-> | (n & -> & Hn)]; simpl; [now exists 30|].
  destruct (Z.leb_spec n 0); [lia|]. now exists n.
Qed.

Lemma store_entry_outcome db url v code protocol host eff :
  (Z.abs (Effects.now_expiry eff + v * 60 * 1000) <= MAX_TIME ->
   status_of (fst (store_entry PORT db url v code protocol host eff)) = 201
   /\ snd (store_entry PORT db url v code protocol host eff)
      = <[code := new_entry url code
                    (Effects.now_expiry eff + v * 60 * 1000) eff]> db)
  /\ (MAX_TIME < Z.abs (Effects.now_expiry eff + v * 60 * 1000) ->
      store_entry PORT db url v code protocol host eff
      = (internal_error "Failed to create short URL", db)).
Proof.
  unfold store_entry, calculateExpiry, toISOString.
  destruct (Z.leb_spec (Z.abs (Effects.now_expiry eff + v * 60 * 1000)) MAX_TIME);
    split; intros; try lia; try reflexivity.
  split; reflexivity.
Qed.

(** Every return of [createAlias]: an error that leaves the store alone, or
    a 201 that adds one entry under a key the store did not hold. *)
Lemma createAlias_inv fuel db body protocol host eff res db' :
  createAlias isURL PORT fuel db body protocol host eff = Some (res, db') ->
  (status_of res <> 201 /\ is_Some (error_of res) /\ db' = db)
  \/ exists url v code,
       Body.url body = Some url /\ isURL url = true
       /\ validityMinutes_of (Body.validity body) = inr v
       /\ finalShortcode_of fuel db (Body.shortcode body) (Effects.random eff)
          = Some (inr code)
       /\ db !! code = None
       /\ Z.abs (Effects.now_expiry eff + v * 60 * 1000) <= MAX_TIME
       /\ status_of res = 201
       /\ db' = <[code := new_entry url code
                            (Effects.now_expiry eff + v * 60 * 1000) eff]> db.
Proof.
  unfold createAlias.
  destruct (truthy (Body.url body)) eqn:Hu; simpl;
    [|intros [= <- <-]; refused].
  destruct (Body.url body) as [url|] eqn:Hurl; [|discriminate]. simpl in *.
  destruct (String.eqb url ""); [discriminate|].
  destruct (isURL url) eqn:Hok; simpl;
    [|intros [= <- <-]; refused].
  destruct (validityMinutes_of (Body.validity body)) as [early|v] eqn:Hv.
  { intros [= <- <-]. apply validityMinutes_of_inl in Hv as ->.
    refused. }
  destruct (finalShortcode_of fuel db (Body.shortcode body) (Effects.random eff))
    as [[early|code]|] eqn:Hc; [| |discriminate].
  { intros [= <- <-].
    destruct (finalShortcode_of_inl _ _ _ _ _ Hc) as [-> | ->]; refused. }
  unfold store_entry, calculateExpiry, toISOString.
  destruct (Z.leb_spec (Z.abs (Effects.now_expiry eff + v * 60 * 1000)) MAX_TIME)
    as [Hin|Hout].
  - intros [= <- <-]. right. exists url, v, code.
    destruct (finalShortcode_of_inr _ _ _ _ _ Hc) as (Hfresh & _).
    repeat split; try assumption; reflexivity.
  - intros [= <- <-]. refused.
Qed.

(** With no custom shortcode, a valid url and a valid validity, the creation
    is the generation loop followed by the insertion. *)
Lemma createAlias_generated fuel db body protocol host eff url v :
  Body.url body = Some url -> url <> "" -> isURL url = true ->
  validityMinutes_of (Body.validity body) = inr v ->
  truthy (Body.shortcode body) = false ->
  createAlias isURL PORT fuel db body protocol host eff
  = match generateUnique fuel db (Effects.random eff) 0 with
    | Some code => Some (store_entry PORT db url v code protocol host eff)
    | None => None
    end.
Proof.
  intros Hurl Hne Hok Hv Hs. unfold createAlias. rewrite Hurl. simpl.
  destruct (String.eqb_spec url ""); [contradiction|]. simpl.
  rewrite Hok, Hv. simpl. unfold finalShortcode_of. rewrite Hs.
  destruct (generateUnique fuel db (Effects.random eff) 0); reflexivity.
Qed.

(** More fuel does not change what the creation returns: the fuel only
    tells how long the model follows the generation loop. *)
Lemma createAlias_fuel_mono fuel fuel' db body protocol host eff out :
  createAlias isURL PORT fuel db body protocol host eff = Some out ->
  (fuel <= fuel')%nat ->
  createAlias isURL PORT fuel' db body protocol host eff = Some out.
Proof.
  unfold createAlias. intros H Hle.
  destruct (negb (truthy (Body.url body))); [exact H|].
  destruct (negb (isURL (or_default (Body.url body) ""))); [exact H|].
  destruct (validityMinutes_of (Body.validity body)) as [early|v]; [exact H|].
  unfold finalShortcode_of in *.
  destruct (truthy (Body.shortcode body)); [exact H|].
  destruct (generateUnique fuel db (Effects.random eff) 0) as [code|] eqn:Hg;
    [|discriminate].
  now rewrite (generateUnique_fuel_mono _ _ _ _ _ _ Hg Hle).
Qed.

End Creation.
(** ** Steps of the service *)

Lemma getStatistics_store db shortcode : snd (getStatistics db shortcode) = db.
Proof.
  unfold getStatistics. destruct (isValidShortcode shortcode); simpl;
    [|reflexivity].
  destruct (db !! shortcode); reflexivity.
Qed.

Lemma step_store_change isURL PORT db rq res db' :
  step isURL PORT db rq res db' -> store_change db rq db'.
Proof.
  intros [fuel d body protocol host eff r d' Hr Hc
         | d shortcode r d' Hs
         | d shortcode req now_check now_click r d' Hs].
  - destruct (createAlias_inv _ _ _ _ _ _ _ _ _ _ Hc)
      as [(_ & _ & ->) | (url & v & code & _ & _ & _ & Hf & Hn & _ & _ & ->)];
      [constructor|].
    apply change_insert; [assumption|].
    exact (finalShortcode_of_valid _ _ _ _ _ Hr Hf).
  - pose proof (getStatistics_store d shortcode) as E. rewrite Hs in E.
    simpl in E. subst d'. constructor.
  - destruct (resolve_inv _ _ _ _ _ _ _ Hs)
      as [(_ & ->) | (urlEntry & Hv & Hl & _ & _ & ->)]; [constructor|].
    now apply change_click.
Qed.

(** A request has one outcome: the fuel of a creation step does not show. *)
Lemma step_deterministic isURL PORT db rq res1 db1 res2 db2 :
  step isURL PORT db rq res1 db1 -> step isURL PORT db rq res2 db2 ->
  res1 = res2 /\ db1 = db2.
Proof.
  intros H1 H2. inversion H1; subst; inversion H2; subst.
  - match goal with
    | Ha : createAlias _ _ ?f1 _ _ _ _ _ = Some _,
      Hb : createAlias _ _ ?f2 _ _ _ _ _ = Some _ |- _ =>
        apply (createAlias_fuel_mono _ _ f1 (Nat.max f1 f2)) in Ha; [|lia];
        apply (createAlias_fuel_mono _ _ f2 (Nat.max f1 f2)) in Hb; [|lia];
        rewrite Ha in Hb; injection Hb as <- <-
    end.
    split; reflexivity.
  - split; congruence.
  - split; congruence.
Qed.

(** ** The concrete run *)

Lemma demo_draws : draws_in_range (Effects.random Demo.effects).
Proof. intros i. simpl. lia. Qed.

Example demo_createAlias :
  createAlias Demo.isURL Demo.PORT 0 ∅ Demo.body (Some "http")
    (Some "sho.rt") Demo.effects
  = Some (Json 201 (CreatedBody "http://sho.rt/abc123" 1700000060000),
          Demo.created).
Proof. vm_compute. reflexivity. Qed.

Example demo_resolve :
  resolve Demo.created "abc123" Demo.req 1700000001000 1700000001000
  = (Redirect "https://example.com/page", Demo.clicked).
Proof. vm_compute. reflexivity. Qed.

(** After the minute of validity the redirect is refused. *)
Example demo_resolve_expired :
  resolve Demo.clicked "abc123" Demo.req 1700000060001 1700000060001
  = (expired, Demo.clicked).
Proof. vm_compute. reflexivity. Qed.

Lemma demo_created_reachable : reachable Demo.isURL Demo.PORT Demo.created.
Proof.
  eapply reachable_step; [apply reachable_empty|].
  eapply step_create; [exact demo_draws|exact demo_createAlias].
Qed.

Lemma demo_clicked_reachable : reachable Demo.isURL Demo.PORT Demo.clicked.
Proof.
  eapply reachable_step; [exact demo_created_reachable|].
  eapply step_resolve. exact demo_resolve.
Qed.

(** ** Invariants of the reachable stores *)

(** C3.  In every reachable store, the click counter of every entry equals
    the number of its recorded clicks. *)
Theorem clickCount_is_length isURL PORT (db : store) :
  reachable isURL PORT db ->
  forall shortcode urlEntry,
    db !! shortcode = Some urlEntry ->
    Entry.clickCount urlEntry = Z.of_nat (List.length (Entry.clicks urlEntry)).
Proof.
  induction 1 as [|db rq res db' Hreach IH Hstep]; intros k e Hk.
  - rewrite lookup_empty in Hk. discriminate.
  - destruct (step_store_change _ _ _ _ _ _ Hstep)
      as [rq | body protocol host eff url code expiryDate Hfresh Hvalid
          | code req now_check now_click urlEntry Hvalid Hlook].
    + eauto.
    + destruct (decide (code = k)) as [->|Hne].
      * rewrite lookup_insert_eq in Hk. injection Hk as <-. reflexivity.
      * rewrite lookup_insert_ne in Hk by assumption. eauto.
    + destruct (decide (code = k)) as [->|Hne].
      * rewrite lookup_insert_eq in Hk. injection Hk as <-. simpl.
        rewrite (IH _ _ Hlook), List.length_app. simpl. lia.
      * rewrite lookup_insert_ne in Hk by assumption. eauto.
Qed.

Lemma clickCount_is_length_witness :
  reachable Demo.isURL Demo.PORT Demo.clicked
  /\ Entry.clickCount
       (record_click
          (new_entry "https://example.com/page" "abc123" 1700000060000
             Demo.effects)
          (clickData_of Demo.req 1700000001000))
     = Z.of_nat 1.
Proof.
  split; [exact demo_clicked_reachable|].
  apply (clickCount_is_length Demo.isURL Demo.PORT Demo.clicked
           demo_clicked_reachable "abc123").
  vm_compute. reflexivity.
Defined.

(** The keys of a reachable store pass the format check, and each is the
    shortcode of its entry. *)
Lemma reachable_keys_valid isURL PORT (db : store) :
  reachable isURL PORT db ->
  forall k e, db !! k = Some e ->
    isValidShortcode k = true /\ Entry.shortcode e = k.
Proof.
  induction 1 as [|db rq res db' Hreach IH Hstep]; intros k e Hk.
  - rewrite lookup_empty in Hk. discriminate.
  - destruct (step_store_change _ _ _ _ _ _ Hstep)
      as [rq | body protocol host eff url code expiryDate Hfresh Hvalid
          | code req now_check now_click urlEntry Hvalid Hlook].
    + eauto.
    + destruct (decide (code = k)) as [->|Hne].
      * rewrite lookup_insert_eq in Hk. injection Hk as <-.
        split; [assumption|reflexivity].
      * rewrite lookup_insert_ne in Hk by assumption. eauto.
    + destruct (decide (code = k)) as [->|Hne].
      * rewrite lookup_insert_eq in Hk. injection Hk as <-.
        split; [assumption|]. simpl. exact (proj2 (IH _ _ Hlook)).
      * rewrite lookup_insert_ne in Hk by assumption. eauto.
Qed.

(** C10.  In every reachable store every key passes the format check (and
    is the shortcode of its entry): a custom code is inserted after the
    check only, and a generated code has six characters of the alphabet.
    So neither the statistics nor the redirect handler answers a stored
    shortcode with a ValidationError. *)
Theorem stored_shortcodes_valid isURL PORT (db : store) :
  reachable isURL PORT db ->
  forall shortcode urlEntry,
    db !! shortcode = Some urlEntry ->
    isValidShortcode shortcode = true
    /\ Entry.shortcode urlEntry = shortcode
    /\ error_of (fst (getStatistics db shortcode)) <> Some ValidationError
    /\ (forall req now_check now_click,
          error_of (fst (resolve db shortcode req now_check now_click))
          <> Some ValidationError)
    /\ (forall rnd pos,
          draws_in_range rnd ->
          String.length (fst (generateShortCode rnd pos)) = 6%nat
          /\ isValidShortcode (fst (generateShortCode rnd pos)) = true).
Proof.
  intros Hreach k e Hk.
  destruct (reachable_keys_valid _ _ _ Hreach k e Hk) as [Hv Hs].
  split; [exact Hv|]. split; [exact Hs|]. split; [|split].
  - unfold getStatistics. rewrite Hv, Hk. discriminate.
  - intros req now_check now_click. unfold resolve. rewrite Hv, Hk. simpl.
    destruct (isExpired now_check (Entry.expiry e)); discriminate.
  - intros rnd pos Hr. now apply generateShortCode_valid.
Qed.

Lemma stored_shortcodes_valid_witness :
  reachable Demo.isURL Demo.PORT Demo.clicked
  /\ isValidShortcode "abc123" = true.
Proof.
  split; [exact demo_clicked_reachable|].
  refine (proj1 (stored_shortcodes_valid Demo.isURL Demo.PORT Demo.clicked
                   demo_clicked_reachable "abc123" _ _)).
  vm_compute. reflexivity.
Defined.

(** ** Frame of a step *)

Lemma same_identity_refl e : same_identity e e.
Proof. repeat split. Qed.

Lemma same_identity_trans e1 e2 e3 :
  same_identity e1 e2 -> same_identity e2 e3 -> same_identity e1 e3.
Proof.
  intros (A1 & A2 & A3 & A4 & A5) (B1 & B2 & B3 & B4 & B5).
  repeat split; congruence.
Qed.

(** A step keeps every entry, up to the clicks a redirect adds to it. *)
Lemma step_keeps_entries isURL PORT db rq res db' :
  step isURL PORT db rq res db' ->
  forall k e, db !! k = Some e ->
    exists e', db' !! k = Some e' /\ same_identity e e'
      /\ (e' = e
          \/ exists req now_check now_click,
               rq = GetShortcode k req now_check now_click
               /\ res = Redirect (Entry.originalUrl e)
               /\ e' = record_click e (clickData_of req now_click)).
Proof.
  intros [fuel d body protocol host eff r d' Hr Hc
         | d shortcode r d' Hs
         | d shortcode req now_check now_click r d' Hs] k e Hk.
  - destruct (createAlias_inv _ _ _ _ _ _ _ _ _ _ Hc)
      as [(_ & _ & ->) | (url & v & code & _ & _ & _ & _ & Hn & _ & _ & ->)].
    + exists e. split; [assumption|]. split; [apply same_identity_refl|].
      left; reflexivity.
    + exists e. assert (code <> k) by congruence.
      rewrite lookup_insert_ne by assumption.
      split; [assumption|]. split; [apply same_identity_refl|].
      left; reflexivity.
  - pose proof (getStatistics_store d shortcode) as E. rewrite Hs in E.
    simpl in E. subst d'.
    exists e. split; [assumption|].
    split; [apply same_identity_refl|]. left; reflexivity.
  - destruct (resolve_inv _ _ _ _ _ _ _ Hs)
      as [(_ & ->) | (urlEntry & Hv & Hl & _ & -> & ->)].
    + exists e. split; [assumption|].
      split; [apply same_identity_refl|]. left; reflexivity.
    + destruct (decide (shortcode = k)) as [->|Hne].
      * rewrite Hl in Hk. injection Hk as ->.
        exists (record_click e (clickData_of req now_click)).
        rewrite lookup_insert_eq. split; [reflexivity|].
        split; [repeat split|].
        right. exists req, now_check, now_click. repeat split.
      * exists e. rewrite lookup_insert_ne by assumption.
        split; [assumption|]. split; [apply same_identity_refl|].
        left; reflexivity.
Qed.

(** C6.  Whatever the request and its clock readings, a step keeps every
    stored entry under its key with its id, original URL, shortcode, creation
    and expiry instants; the entry is left as it was unless the step is the
    successful redirect of that very shortcode, which adds one to its counter
    and one click to its clicks.  A redirect request changes no other key:
    it neither adds nor removes one. *)
Theorem step_frame isURL PORT (db : store) rq res (db' : store) :
  step isURL PORT db rq res db' ->
  (forall k e, db !! k = Some e ->
     exists e', db' !! k = Some e' /\ same_identity e e'
       /\ (e' = e
           \/ exists req now_check now_click,
                rq = GetShortcode k req now_check now_click
                /\ res = Redirect (Entry.originalUrl e)
                /\ e' = record_click e (clickData_of req now_click)))
  /\ (forall shortcode req now_check now_click,
        rq = GetShortcode shortcode req now_check now_click ->
        (forall k, k <> shortcode -> db' !! k = db !! k)
        /\ dom db' = dom db).
Proof.
  intros Hstep. split; [exact (step_keeps_entries _ _ _ _ _ _ Hstep)|].
  intros shortcode req now_check now_click ->.
  inversion Hstep as [| |d s rq' t1 t2 r d' Hs]; subst.
  destruct (resolve_inv _ _ _ _ _ _ _ Hs)
    as [(_ & ->) | (urlEntry & Hv & Hl & _ & -> & ->)].
  - split; reflexivity.
  - split.
    + intros k Hk. now rewrite lookup_insert_ne.
    + rewrite dom_insert_L. apply subseteq_union_1_L.
      apply singleton_subseteq_l, elem_of_dom. eauto.
Qed.

Lemma step_frame_witness :
  step Demo.isURL Demo.PORT Demo.created
    (GetShortcode "abc123" Demo.req 1700000001000 1700000001000)
    (Redirect "https://example.com/page") Demo.clicked
  /\ dom Demo.clicked = dom Demo.created.
Proof.
  assert (H : step Demo.isURL Demo.PORT Demo.created
                (GetShortcode "abc123" Demo.req 1700000001000 1700000001000)
                (Redirect "https://example.com/page") Demo.clicked).
  { apply step_resolve. vm_compute. reflexivity. }
  split; [exact H|].
  exact (proj2 (proj2 (step_frame Demo.isURL Demo.PORT _ _ _ _ H)
                  "abc123" Demo.req 1700000001000 1700000001000 eq_refl)).
Defined.

(** Along a run, an entry stays under its key with the same identity, and
    no click of it is lost. *)
Lemma steps_keep_entries isURL PORT db trace db' :
  steps isURL PORT db trace db' ->
  forall k e, db !! k = Some e ->
    exists e', db' !! k = Some e' /\ same_identity e e'
      /\ exists added, Entry.clicks e' = (Entry.clicks e ++ added)%list.
Proof.
  induction 1 as [db|db rq res db1 trace db2 Hstep Hrest IH]; intros k e Hk.
  - exists e. split; [assumption|]. split; [apply same_identity_refl|].
    exists []. now rewrite List.app_nil_r.
  - destruct (step_keeps_entries _ _ _ _ _ _ Hstep k e Hk)
      as (e1 & Hk1 & Hid1 & Hcase).
    destruct (IH k e1 Hk1) as (e2 & Hk2 & Hid2 & added & Hadd).
    exists e2. split; [assumption|].
    split; [exact (same_identity_trans _ _ _ Hid1 Hid2)|].
    destruct Hcase as [-> | (req & t1 & t2 & _ & _ & ->)].
    + now exists added.
    + exists (clickData_of req t2 :: added). rewrite Hadd. simpl.
      now rewrite <- List.app_assoc.
Qed.
(** The reachable stores are the stores at the end of a run from the empty
    store. *)
Lemma steps_snoc isURL PORT db trace db1 rq res db2 :
  steps isURL PORT db trace db1 -> step isURL PORT db1 rq res db2 ->
  steps isURL PORT db (trace ++ [(rq, res)]) db2.
Proof.
  induction 1 as [db|db rq0 res0 db0 trace db1 Hstep Hrest IH]; intros Hlast.
  - simpl. eapply steps_cons; [exact Hlast|apply steps_nil].
  - simpl. eapply steps_cons; [exact Hstep|]. now apply IH.
Qed.

Lemma reachable_iff_steps isURL PORT db :
  reachable isURL PORT db <-> exists trace, steps isURL PORT ∅ trace db.
Proof.
  split.
  - induction 1 as [|db rq res db' Hreach [trace IH] Hstep].
    + exists []. apply steps_nil.
    + exists (trace ++ [(rq, res)])%list. eapply steps_snoc; eassumption.
  - intros [trace H].
    assert (G : forall d0 d1, steps isURL PORT d0 trace d1 ->
              reachable isURL PORT d0 -> reachable isURL PORT d1).
    { clear. induction 1 as [d|d rq res d1 trace d2 Hstep Hrest IH];
        intros Hr; [exact Hr|].
      apply IH. eapply reachable_step; eassumption. }
    apply (G _ _ H). apply reachable_empty.
Qed.

(** ** Clicks along a run *)

Lemma error_not_redirect res url : is_Some (error_of res) -> res <> Redirect url.
Proof. intros [k Hk] ->. discriminate Hk. Qed.

(** One step, seen from a key of the store it leaves. *)
Lemma step_clicks isURL PORT db rq res db1 :
  step isURL PORT db rq res db1 ->
  forall k e1, db1 !! k = Some e1 ->
    Entry.clicks e1 = (clicks_at db k ++ redirect_clicks k [(rq, res)])%list
    /\ Entry.clickCount e1
       = count_at db k
         + Z.of_nat (List.length (redirect_clicks k [(rq, res)])).
Proof.
  unfold clicks_at, count_at.
  intros [fuel d body protocol host eff r d' Hr Hc
         | d shortcode r d' Hs
         | d shortcode req now_check now_click r d' Hs] k e1 Hk; cbn [redirect_clicks].
  - rewrite List.app_nil_r, Z.add_0_r.
    destruct (createAlias_inv _ _ _ _ _ _ _ _ _ _ Hc)
      as [(_ & _ & ->) | (url & v & code & _ & _ & _ & _ & Hn & _ & _ & ->)].
    + rewrite Hk. split; reflexivity.
    + destruct (decide (code = k)) as [->|Hne].
      * rewrite lookup_insert_eq in Hk. injection Hk as <-. rewrite Hn.
        split; reflexivity.
      * rewrite lookup_insert_ne in Hk by assumption. rewrite Hk.
        split; reflexivity.
  - rewrite List.app_nil_r, Z.add_0_r.
    pose proof (getStatistics_store d shortcode) as E. rewrite Hs in E.
    simpl in E. subst d'. rewrite Hk. split; reflexivity.
  - destruct (resolve_inv _ _ _ _ _ _ _ Hs)
      as [(Herr & ->) | (urlEntry & Hv & Hl & _ & -> & ->)].
    + rewrite Hk. destruct r as [status payload|url].
      * rewrite List.app_nil_r, Z.add_0_r. split; reflexivity.
      * destruct Herr as [x Hx]. discriminate Hx.
    + cbn [redirect_clicks].
      destruct (String.eqb_spec shortcode k) as [->|Hne].
      * rewrite lookup_insert_eq in Hk. injection Hk as <-. rewrite Hl.
        simpl. split; reflexivity.
      * rewrite lookup_insert_ne in Hk by assumption. rewrite Hk.
        rewrite List.app_nil_r, Z.add_0_r. split; reflexivity.
Qed.

Lemma redirect_clicks_cons k step trace :
  redirect_clicks k (step :: trace)
  = (redirect_clicks k [step] ++ redirect_clicks k trace)%list.
Proof.
  destruct step as [[body protocol host eff|s|s req t1 t2] [status payload|url]];
    try reflexivity.
  simpl. destruct (String.eqb s k); reflexivity.
Qed.

(** A run, seen from a key of the store it leaves. *)
Lemma steps_clicks isURL PORT db trace db' :
  steps isURL PORT db trace db' ->
  forall k e', db' !! k = Some e' ->
    Entry.clicks e' = (clicks_at db k ++ redirect_clicks k trace)%list
    /\ Entry.clickCount e'
       = count_at db k + Z.of_nat (List.length (redirect_clicks k trace)).
Proof.
  induction 1 as [db|db rq res db1 trace db2 Hstep Hrest IH]; intros k e' Hk.
  - unfold clicks_at, count_at. rewrite Hk. simpl.
    rewrite List.app_nil_r, Z.add_0_r. split; reflexivity.
  - destruct (IH k e' Hk) as [Hcl Hct].
    rewrite redirect_clicks_cons, List.length_app, Hcl, Hct.
    unfold clicks_at, count_at in *.
    destruct (db1 !! k) as [e1|] eqn:H1.
    + destruct (step_clicks _ _ _ _ _ _ Hstep k e1 H1) as [Hc1 Ht1].
      unfold clicks_at, count_at in *. cbn [from_option].
      rewrite Hc1, Ht1, List.app_assoc. split; [reflexivity|lia].
    + assert (Hnone : db !! k = None).
      { destruct (db !! k) as [e|] eqn:H0; [|reflexivity].
        destruct (step_keeps_entries _ _ _ _ _ _ Hstep k e H0) as (e1 & He1 & _).
        congruence. }
      assert (Hno : redirect_clicks k [(rq, res)] = []).
      { inversion Hstep as [| |d s req t1 t2 r d' Hs]; subst; try reflexivity.
        destruct (resolve_inv _ _ _ _ _ _ _ Hs)
          as [(Herr & ->) | (urlEntry & Hv & Hl & _ & -> & ->)].
        - destruct res as [status payload|url]; [reflexivity|].
          destruct Herr as [x Hx]. discriminate Hx.
        - simpl. destruct (String.eqb_spec s k) as [->|Hne]; [|reflexivity].
          rewrite lookup_insert_eq in H1. discriminate. }
      rewrite Hnone, Hno. simpl. split; reflexivity.
Qed.

(** ** Statistics *)

Lemma no_redirect_request_clicks k trace :
  no_redirect_request trace -> redirect_clicks k trace = [].
Proof.
  induction 1 as [|[rq res] trace Hrq _ IH]; [reflexivity|].
  destruct rq as [body protocol host eff|s|s req t1 t2];
    [exact IH|exact IH|destruct Hrq].
Qed.

Lemma lookup_map_detail (clicks : list Click.t) : forall i click,
  clicks !! i = Some click ->
  map detail_of clicks !! i = Some (detail_of click).
Proof.
  induction clicks as [|c clicks IH]; intros [|i] click H;
    try discriminate H.
  - injection H as ->. reflexivity.
  - simpl. apply IH. exact H.
Qed.

(** After a run that recorded no click for a stored shortcode, its
    statistics are answered as before the run. *)
Lemma getStatistics_after_run isURL PORT db trace db' :
  steps isURL PORT db trace db' ->
  forall shortcode,
    is_Some (db !! shortcode) ->
    redirect_clicks shortcode trace = [] ->
    fst (getStatistics db' shortcode) = fst (getStatistics db shortcode).
Proof.
  intros Hrun shortcode [urlEntry Hl] Hno.
  destruct (steps_keep_entries _ _ _ _ _ Hrun _ _ Hl)
    as (e' & Hl' & (_ & Hurl & _ & Hcreated & Hexp) & _).
  destruct (steps_clicks _ _ _ _ _ Hrun _ _ Hl') as [Hclicks Hcount].
  unfold clicks_at, count_at in Hclicks, Hcount.
  rewrite Hl, Hno in Hclicks, Hcount. cbn [from_option] in Hclicks, Hcount.
  rewrite List.app_nil_r in Hclicks. simpl in Hcount. rewrite Z.add_0_r in Hcount.
  unfold getStatistics. rewrite Hl, Hl'.
  destruct (isValidShortcode shortcode); [|reflexivity]. simpl.
  rewrite Hurl, Hcreated, Hexp, Hclicks, Hcount. reflexivity.
Qed.

(** C5.  For a shortcode stored in a reachable store, [getStatistics]
    answers 200 with the entry's counter as [totalClicks], its url, creation
    and expiry instants, and one detail per recorded click, in the order of
    the clicks, each with the timestamp, the referer, the user agent and the
    location of its click.  It leaves the store as it was.  Asked again after
    any run of requests that recorded no click for the shortcode (creations,
    statistics requests, refused redirects and redirects of other
    shortcodes; in particular any run with no redirect request at all), it
    gives the same answer.  It reads no clock: it answers 200 for an entry
    that the redirect handler refuses as expired. *)
Theorem getStatistics_readonly isURL PORT (db : store) :
  reachable isURL PORT db ->
  forall shortcode urlEntry,
    db !! shortcode = Some urlEntry ->
    let out := getStatistics db shortcode in
    (exists statistics,
       fst out = Json 200 (StatisticsBody statistics)
       /\ Stats.totalClicks statistics = Entry.clickCount urlEntry
       /\ Stats.originalUrl statistics = Entry.originalUrl urlEntry
       /\ Stats.creationDate statistics = Entry.createdAt urlEntry
       /\ Stats.expiryDate statistics = Entry.expiry urlEntry
       /\ Stats.clickDetails statistics
          = map detail_of (Entry.clicks urlEntry)
       /\ List.length (Stats.clickDetails statistics)
          = List.length (Entry.clicks urlEntry)
       /\ (forall i click,
             Entry.clicks urlEntry !! i = Some click ->
             exists detail,
               Stats.clickDetails statistics !! i = Some detail
               /\ Detail.timestamp detail = Click.timestamp click
               /\ Detail.referer detail = Click.referer click
               /\ Detail.userAgent detail = Click.userAgent click
               /\ Detail.location detail = Click.location click))
    /\ snd out = db
    /\ (forall other,
          getStatistics (snd (getStatistics db other)) shortcode = out)
    /\ (forall trace db',
          steps isURL PORT db trace db' ->
          (redirect_clicks shortcode trace = [] ->
           fst (getStatistics db' shortcode) = fst out)
          /\ (no_redirect_request trace ->
              fst (getStatistics db' shortcode) = fst out))
    /\ (forall req now_check now_click,
          now_check > Entry.expiry urlEntry ->
          error_of (fst (resolve db shortcode req now_check now_click))
          = Some ExpiredError
          /\ status_of (fst out) = 200).
Proof.
  intros Hreach shortcode urlEntry Hl out.
  destruct (reachable_keys_valid _ _ _ Hreach _ _ Hl) as (Hv & _).
  assert (Hout : out
            = (Json 200 (StatisticsBody
                 {| Stats.totalClicks := Entry.clickCount urlEntry;
                    Stats.originalUrl := Entry.originalUrl urlEntry;
                    Stats.creationDate := Entry.createdAt urlEntry;
                    Stats.expiryDate := Entry.expiry urlEntry;
                    Stats.clickDetails :=
                      map detail_of (Entry.clicks urlEntry) |}), db)).
  { subst out. unfold getStatistics. rewrite Hv, Hl. reflexivity. }
  split; [|split; [|split; [|split]]].
  - eexists. rewrite Hout. cbn [fst].
    split; [reflexivity|]. do 5 (split; [reflexivity|]).
    cbn [Stats.clickDetails]. split; [apply List.length_map|].
    intros i click Hi. exists (detail_of click).
    split; [now apply lookup_map_detail|]. repeat split.
  - rewrite Hout. reflexivity.
  - intros other. rewrite getStatistics_store. reflexivity.
  - intros trace db' Hrun.
    assert (G : redirect_clicks shortcode trace = [] ->
                fst (getStatistics db' shortcode) = fst out).
    { intros Hno. subst out.
      apply (getStatistics_after_run _ _ _ _ _ Hrun);
        [now exists urlEntry|exact Hno]. }
    split; [exact G|].
    intros Hno. apply G. now apply no_redirect_request_clicks.
  - intros req now_check now_click Hgt. split.
    + unfold resolve. rewrite Hv, Hl. unfold isExpired.
      destruct (Z.gtb_spec now_check (Entry.expiry urlEntry)); [|lia].
      reflexivity.
    + rewrite Hout. reflexivity.
Qed.

(** The statistics of the demo entry, before and after a creation. *)
Lemma getStatistics_readonly_witness :
  reachable Demo.isURL Demo.PORT Demo.clicked
  /\ snd (getStatistics Demo.clicked "abc123") = Demo.clicked
  /\ fst (getStatistics
            (<[ "aaaaaa" := new_entry "https://example.com/page" "aaaaaa"
                              1700001800000 Demo.effects ]> Demo.clicked)
            "abc123")
     = fst (getStatistics Demo.clicked "abc123").
Proof.
  split; [exact demo_clicked_reachable|].
  assert (Hl : Demo.clicked !! "abc123"
               = Some (record_click
                         (new_entry "https://example.com/page" "abc123"
                            1700000060000 Demo.effects)
                         (clickData_of Demo.req 1700000001000)))
    by (vm_compute; reflexivity).
  destruct (getStatistics_readonly Demo.isURL Demo.PORT Demo.clicked
              demo_clicked_reachable "abc123" _ Hl)
    as (_ & Hsnd & _ & Hrun & _).
  split; [exact Hsnd|].
  refine (proj2 (Hrun
            [(PostShorturls Demo.body_empty_shortcode (Some "http")
                (Some "sho.rt") Demo.effects,
              Json 201 (CreatedBody "http://sho.rt/aaaaaa" 1700001800000))]
            _ _) _).
  - eapply steps_cons; [|apply steps_nil].
    apply (step_create Demo.isURL Demo.PORT 1); [exact demo_draws|].
    vm_compute. reflexivity.
  - repeat constructor.
Defined.

(** The statistics of the expired demo entry. *)
Example demo_getStatistics_after_expiry :
  fst (resolve Demo.clicked "abc123" Demo.req 1700000060001 1700000060001)
  = expired
  /\ fst (getStatistics Demo.clicked "abc123")
     = Json 200 (StatisticsBody
         {| Stats.totalClicks := 1;
            Stats.originalUrl := "https://example.com/page";
            Stats.creationDate := 1700000000000;
            Stats.expiryDate := 1700000060000;
            Stats.clickDetails :=
              [ {| Detail.timestamp := 1700000001000;
                   Detail.referer := "Direct";
                   Detail.userAgent := "curl/8.0";
                   Detail.location :=
                     {| country := "Germany"; city := "Berlin" |} |} ] |}).
Proof. split; vm_compute; reflexivity. Qed.

(** ** The creation on any JSON body *)

Lemma on_strings_id db : on_strings db (Database.strings db) = db.
Proof. destruct db; reflexivity. Qed.

Lemma truthy_value_Some v x :
  truthy_value v = Some x -> v = Some x /\ json_truthy (Some x) = true.
Proof.
  unfold truthy_value. destruct (json_truthy v) eqn:H; [|discriminate].
  intros ->. split; [reflexivity|exact H].
Qed.




Lemma store_json_outcome PORT db url v key protocol host eff :
  (Z.abs (Effects.now_expiry eff + v * 60 * 1000) <= MAX_TIME ->
   store_json PORT db url v key protocol host eff
   = (Json 201
        (CreatedBody
           (or_default protocol "http" ++ "://"
            ++ or_default host ("localhost:" ++ PORT) ++ "/" ++ json_text key)
           (Effects.now_expiry eff + v * 60 * 1000)),
      set_entry db key url (Effects.now_expiry eff + v * 60 * 1000) eff))
  /\ (MAX_TIME < Z.abs (Effects.now_expiry eff + v * 60 * 1000) ->
      store_json PORT db url v key protocol host eff
      = (internal_error "Failed to create short URL", db)).
Proof.
  unfold store_json, calculateExpiry, toISOString.
  destruct (Z.leb_spec (Z.abs (Effects.now_expiry eff + v * 60 * 1000)) MAX_TIME);
    split; intros; try lia; reflexivity.
Qed.

Section JsonCreation.

Variable isURL : string -> bool.
Variable PORT : string.

(** Every return of the creation: a refusal that leaves the database alone,
    or a 201 that sets one entry under the custom shortcode or under a
    generated string. *)
Lemma createAlias_json_inv fuel db body protocol host eff res db' :
  createAlias_json isURL PORT fuel db body protocol host eff = Some (res, db') ->
  (status_of res <> 201 /\ is_Some (error_of res) /\ db' = db)
  \/ exists url v key,
       RawBody.url body = Some (JString url) /\ url <> "" /\ isURL url = true
       /\ validityMinutes_of (RawBody.validity body) = inr v
       /\ (truthy_value (RawBody.shortcode body) = Some key
           /\ isValidShortcode (json_text key) = true
           /\ has_key db key = false
           \/ truthy_value (RawBody.shortcode body) = None
              /\ exists code, key = JString code
                   /\ generateUnique fuel (Database.strings db)
                        (Effects.random eff) 0 = Some code)
       /\ Z.abs (Effects.now_expiry eff + v * 60 * 1000) <= MAX_TIME
       /\ res = Json 201
                  (CreatedBody
                     (or_default protocol "http" ++ "://"
                      ++ or_default host ("localhost:" ++ PORT) ++ "/"
                      ++ json_text key)
                     (Effects.now_expiry eff + v * 60 * 1000))
       /\ db' = set_entry db key url
                  (Effects.now_expiry eff + v * 60 * 1000) eff.
Proof.
  unfold createAlias_json.
  destruct (truthy_value (RawBody.url body)) as [u|] eqn:Hu;
    [|intros [= <- <-]; refused].
  apply truthy_value_Some in Hu as [Hurl Hut].
  destruct u as [|b|text|url|text]; try (intros [= <- <-]; refused).
  assert (Hne : url <> "") by (intros ->; discriminate Hut).
  destruct (isURL url) eqn:Hok; simpl; [|intros [= <- <-]; refused].
  destruct (validityMinutes_of (RawBody.validity body)) as [early|v] eqn:Hv.
  { intros [= <- <-]. apply validityMinutes_of_inl in Hv as ->. refused. }
  assert (Hstore : forall key,
            Some (store_json PORT db url v key protocol host eff)
            = Some (res, db') ->
            (status_of res <> 201 /\ is_Some (error_of res) /\ db' = db)
            \/ (Z.abs (Effects.now_expiry eff + v * 60 * 1000) <= MAX_TIME
                /\ res = Json 201
                           (CreatedBody
                              (or_default protocol "http" ++ "://"
                               ++ or_default host ("localhost:" ++ PORT) ++ "/"
                               ++ json_text key)
                              (Effects.now_expiry eff + v * 60 * 1000))
                /\ db' = set_entry db key url
                           (Effects.now_expiry eff + v * 60 * 1000) eff)).
  { intros key.
    destruct (store_json_outcome PORT db url v key protocol host eff)
      as [Hin Hout].
    destruct (Z.le_gt_cases (Z.abs (Effects.now_expiry eff + v * 60 * 1000))
                MAX_TIME) as [Hle|Hgt].
    - rewrite (Hin Hle). intros [= <- <-]. right. repeat split. exact Hle.
    - rewrite (Hout Hgt). intros [= <- <-]. refused. }
  destruct (truthy_value (RawBody.shortcode body)) as [shortcode|] eqn:Hs.
  - destruct (isValidShortcode (json_text shortcode)) eqn:Hfmt; simpl;
      [|intros [= <- <-]; refused].
    destruct (has_key db shortcode) eqn:Hhas; [intros [= <- <-]; refused|].
    intros Hc.
    destruct (Hstore _ Hc) as [Hr | (Hle & -> & ->)]; [left; exact Hr|].
    right. exists url, v, shortcode.
    do 4 (split; [first [assumption|reflexivity]|]).
    split; [|split; [assumption|split; reflexivity]].
    left. repeat split; first [assumption|reflexivity].
  - destruct (generateUnique fuel (Database.strings db) (Effects.random eff) 0)
      as [code|] eqn:Hg; [|discriminate].
    intros Hc.
    destruct (Hstore _ Hc) as [Hr | (Hle & -> & ->)]; [left; exact Hr|].
    right. exists url, v, (JString code).
    do 4 (split; [first [assumption|reflexivity]|]).
    split; [|split; [assumption|split; reflexivity]].
    right. split; [reflexivity|]. exists code. split; reflexivity.
Qed.

End JsonCreation.

Section JsonRuns.

Variable isURL : string -> bool.
Variable PORT : string.

Lemma set_entry_strings db key url expiryDate eff :
  Database.strings (set_entry db key url expiryDate eff)
  = match key with
    | JString s => <[s := new_entry url s expiryDate eff]> (Database.strings db)
    | _ => Database.strings db
    end.
Proof. destruct key; reflexivity. Qed.

(** On a body of strings the creation is [createAlias] on the string-keyed
    part. *)
Lemma createAlias_json_strings fuel db body protocol host eff :
  createAlias_json isURL PORT fuel db (json_body body) protocol host eff
  = (fun out => (fst out, on_strings db (snd out)))
    <$> createAlias isURL PORT fuel (Database.strings db) body protocol host eff.
Proof.
  unfold createAlias_json, createAlias, json_body, truthy_value.
  cbn [RawBody.url RawBody.validity RawBody.shortcode].
  destruct (Body.url body) as [url|]; simpl;
    [|now rewrite on_strings_id].
  destruct (String.eqb url ""); simpl; [now rewrite on_strings_id|].
  destruct (isURL url); simpl; [|now rewrite on_strings_id].
  destruct (validityMinutes_of (Body.validity body)) as [early|v]; simpl;
    [now rewrite on_strings_id|].
  unfold finalShortcode_of, store_json, store_entry.
  destruct (Body.shortcode body) as [code|]; simpl.
  - destruct (String.eqb code ""); simpl.
    + destruct (generateUnique fuel (Database.strings db) (Effects.random eff) 0);
        [|reflexivity]. simpl.
      destruct (calculateExpiry (Effects.now_expiry eff) v); simpl;
        [reflexivity|now rewrite on_strings_id].
    + destruct (isValidShortcode code); simpl; [|now rewrite on_strings_id].
      destruct (has (Database.strings db) code); simpl;
        [now rewrite on_strings_id|].
      destruct (calculateExpiry (Effects.now_expiry eff) v); simpl;
        [reflexivity|now rewrite on_strings_id].
  - destruct (generateUnique fuel (Database.strings db) (Effects.random eff) 0);
      [|reflexivity]. simpl.
    destruct (calculateExpiry (Effects.now_expiry eff) v); simpl;
      [reflexivity|now rewrite on_strings_id].
Qed.

(** What a creation on any body does to the string-keyed part: nothing, or
    what [createAlias] does on a body of strings, with the same response. *)
Lemma createAlias_json_string_part fuel db body protocol host eff res db' :
  createAlias_json isURL PORT fuel db body protocol host eff = Some (res, db') ->
  Database.strings db' = Database.strings db
  \/ exists url,
       RawBody.url body = Some (JString url)
       /\ createAlias isURL PORT fuel (Database.strings db)
            (string_body url body) protocol host eff
          = Some (res, Database.strings db').
Proof.
  intros Hc.
  destruct (createAlias_json_inv _ _ _ _ _ _ _ _ _ _ Hc)
    as [(_ & _ & ->) | (url & v & key & Hurl & Hne & Hok & Hv & Hkey & Hle & -> & ->)];
    [left; reflexivity|].
  rewrite set_entry_strings.
  destruct key as [|b|text|code|text]; try (left; reflexivity).
  right. exists url. split; [exact Hurl|].
  destruct (store_entry_outcome PORT (Database.strings db) url v code
              protocol host eff) as [Hin _].
  destruct (Hin Hle) as [H201 Hdb].
  assert (Hstore : store_entry PORT (Database.strings db) url v code protocol
                     host eff
                   = (Json 201
                        (CreatedBody
                           (or_default protocol "http" ++ "://"
                            ++ or_default host ("localhost:" ++ PORT) ++ "/"
                            ++ json_text (JString code))
                           (Effects.now_expiry eff + v * 60 * 1000)),
                      <[code := new_entry url code
                                  (Effects.now_expiry eff + v * 60 * 1000) eff]>
                        (Database.strings db))).
  { unfold store_entry, calculateExpiry, toISOString.
    destruct (Z.leb_spec (Z.abs (Effects.now_expiry eff + v * 60 * 1000)) MAX_TIME);
      [reflexivity|lia]. }
  unfold createAlias, string_body. cbn [Body.url Body.validity Body.shortcode].
  simpl truthy. simpl or_default.
  destruct (String.eqb_spec url ""); [contradiction|]. simpl.
  rewrite Hok, Hv. simpl. unfold finalShortcode_of.
  destruct Hkey as [(Hs & Hfmt & Hhas) | (Hs & code' & [= <-] & Hg)]; rewrite Hs.
  - apply truthy_value_Some in Hs as [_ Ht]. simpl in Ht. simpl truthy.
    rewrite Ht. simpl or_default.
    destruct (String.eqb code ""); [discriminate Ht|].
    simpl in Hfmt, Hhas. rewrite Hfmt, Hhas. simpl. now rewrite Hstore.
  - simpl. rewrite Hg. now rewrite Hstore.
Qed.

Lemma json_step_string_part db rq res db' :
  json_step isURL PORT db rq res db' ->
  Database.strings db' = Database.strings db
  \/ exists rq', step isURL PORT (Database.strings db) rq' res
                   (Database.strings db').
Proof.
  intros [fuel d body protocol host eff r d' Hr Hc
         | d shortcode r s' Hs
         | d shortcode req now_check now_click r s' Hs].
  - destruct (createAlias_json_string_part _ _ _ _ _ _ _ _ Hc)
      as [H|(url & _ & H)];
      [left; exact H|].
    right. eexists. eapply step_create; eassumption.
  - right. eexists. apply step_statistics. exact Hs.
  - right. eexists. apply step_resolve. exact Hs.
Qed.

(** A run on any bodies, seen from the string-keyed part, is a run of the
    service on bodies of strings. *)
Lemma json_steps_string_part db trace db' :
  json_steps isURL PORT db trace db' ->
  exists trace', steps isURL PORT (Database.strings db) trace'
                   (Database.strings db').
Proof.
  induction 1 as [db|db rq res db1 trace db2 Hstep _ [trace' IH]].
  - exists []. apply steps_nil.
  - destruct (json_step_string_part _ _ _ _ Hstep) as [H|[rq' H]].
    + exists trace'. rewrite <- H. exact IH.
    + eexists. eapply steps_cons; eassumption.
Qed.

End JsonRuns.

(** ** Validation order of the creation *)



(** The rejections at work: no url, a url without a scheme, a validity of
    zero, a custom shortcode of two characters, a custom shortcode in use. *)
Example demo_createAlias_rejections :
  let body url validity shortcode :=
    {| Body.url := url; Body.validity := validity;
       Body.shortcode := shortcode |} in
  let create db b :=
    createAlias Demo.isURL Demo.PORT 0 db b (Some "http") (Some "sho.rt")
      Demo.effects in
  create ∅ (body None ValidityAbsent None) = Some (url_required, ∅)
  /\ create ∅ (body (Some "example.com/page") ValidityAbsent None)
     = Some (invalid_url, ∅)
  /\ create ∅ (body (Some "https://example.com/page") (ValidityInt 0) None)
     = Some (invalid_validity, ∅)
  /\ create ∅ (body (Some "https://example.com/page") ValidityAbsent
                 (Some "ab"))
     = Some (invalid_shortcode, ∅)
  /\ create Demo.created Demo.body = Some (shortcode_exists, Demo.created).
Proof. repeat split; vm_compute; reflexivity. Qed.

(** Values that are no strings: a number as url; a number as custom
    shortcode, which is stored under the number, and asked for again. *)
Example demo_createAlias_json :
  let create db b :=
    createAlias_json Demo.isURL Demo.PORT 0 db b None None Demo.effects in
  create empty_database Demo.body_number_url
  = Some (internal_error "Failed to create short URL", empty_database)
  /\ create empty_database Demo.body_number_shortcode
     = Some (Json 201 (CreatedBody "http://localhost:3000/123456"
                         1700000060000),
             Demo.numbered)
  /\ create Demo.numbered Demo.body_number_shortcode
     = Some (shortcode_exists, Demo.numbered).
Proof. repeat split; vm_compute; reflexivity. Qed.

(** ** The generation loop *)

Lemma colliding_draws_range cap : draws_in_range (colliding_draws cap).
Proof.
  intros i. unfold colliding_draws.
  destruct (i <? 6 * cap)%nat; simpl; lia.
Qed.

Lemma colliding_draws_codes cap :
  (forall i, (i < cap)%nat -> nth_code (colliding_draws cap) i = "aaaaaa")
  /\ nth_code (colliding_draws cap) cap = "bbbbbb".
Proof.
  split.
  - intros i Hi. unfold nth_code, generateShortCode. cbn [fst].
    rewrite (append_chars_ext _ (fun _ => 0%nat)); [reflexivity|].
    intros j Hj. unfold colliding_draws.
    destruct (Nat.ltb_spec (6 * i + j) (6 * cap)); [reflexivity|lia].
  - unfold nth_code, generateShortCode. cbn [fst].
    rewrite (append_chars_ext _ (fun _ => 1%nat)); [reflexivity|].
    intros j Hj. unfold colliding_draws.
    destruct (Nat.ltb_spec (6 * cap + j) (6 * cap)); [lia|reflexivity].
Qed.

(** A cap on the retries would make every creation fail with an
    InternalError once that many generated codes have collided.  There is no
    such cap: whatever the number, a creation with a url and a validity that
    pass, no custom shortcode and an expiry date in range, whose first [cap]
    codes all collide, answers 201 with the next code. *)
Lemma generation_has_no_retry_cap :
  ~ exists cap : nat,
      forall isURL PORT fuel db body protocol host eff url v res db',
        Body.url body = Some url -> url <> "" -> isURL url = true ->
        validityMinutes_of (Body.validity body) = inr v ->
        truthy (Body.shortcode body) = false ->
        draws_in_range (Effects.random eff) ->
        Z.abs (Effects.now_expiry eff + v * 60 * 1000) <= MAX_TIME ->
        (forall i, (i < cap)%nat ->
           has db (nth_code (Effects.random eff) i) = true) ->
        createAlias isURL PORT fuel db body protocol host eff
        = Some (res, db') ->
        error_of res = Some InternalError.
Proof.
  intros [cap H].
  destruct (colliding_draws_codes cap) as [Hcol Hnext].
  assert (Hc : forall i, (i < cap)%nat ->
            has Demo.generated
              (nth_code (Effects.random (Demo.colliding_effects cap)) i)
            = true).
  { intros i Hi. simpl Effects.random. rewrite Hcol by lia. reflexivity. }
  assert (Hrun : createAlias Demo.isURL Demo.PORT (S cap) Demo.generated
                   Demo.body_generated None None (Demo.colliding_effects cap)
            = Some (store_entry Demo.PORT Demo.generated
                      "https://example.com/other" 30 "bbbbbb" None None
                      (Demo.colliding_effects cap))).
  { rewrite (createAlias_generated _ _ _ _ _ _ _ _
               "https://example.com/other" 30);
      try reflexivity; [|discriminate].
    change 0%nat with (6 * 0)%nat.
    rewrite (generateUnique_after_collisions (S cap) _ _ 0 cap).
    - simpl Effects.random. rewrite Hnext. reflexivity.
    - lia.
    - intros i Hi. apply Hc. lia.
    - simpl Effects.random. rewrite Hnext. reflexivity. }
  rewrite (surjective_pairing (store_entry _ _ _ _ _ _ _ _)) in Hrun.
  specialize (H Demo.isURL Demo.PORT (S cap) Demo.generated
                Demo.body_generated None None
                (Demo.colliding_effects cap) "https://example.com/other" 30
                _ _ eq_refl ltac:(discriminate) eq_refl eq_refl eq_refl
                (colliding_draws_range cap) ltac:(vm_compute; discriminate)
                Hc Hrun).
  discriminate H.
Qed.

(** C4, as the code has it.
    With no custom shortcode supplied (and a valid url and
    validity) the shortcode comes from a loop that draws a code and asks the
    store, again and again while the store holds the code drawn; the loop has
    no cap on its retries.  After any number [n] of collisions followed by a
    code the store does not hold, the creation returns with that code, and
    inserts it unless the expiry date is out of range.  Whenever the creation
    returns 201, the key it inserted was drawn after collisions only and was
    not in the store; an InternalError comes from an expiry date out of
    range, never from the retries. *)
Theorem generation_loop_unbounded isURL PORT (db : store) (body : Body.t)
    (protocol host : option string) (eff : Effects.t) (url : string) :
  Body.url body = Some url -> url <> "" -> isURL url = true ->
  validity_ok (Body.validity body) ->
  truthy (Body.shortcode body) = false ->
  exists v, validityMinutes_of (Body.validity body) = inr v
  /\ (forall n fuel,
        (forall i, (i < n)%nat ->
           has db (nth_code (Effects.random eff) i) = true) ->
        has db (nth_code (Effects.random eff) n) = false ->
        (n < fuel)%nat ->
        let code := nth_code (Effects.random eff) n in
        createAlias isURL PORT fuel db body protocol host eff
        = Some (store_entry PORT db url v code protocol host eff)
        /\ (Z.abs (Effects.now_expiry eff + v * 60 * 1000) <= MAX_TIME ->
            status_of (fst (store_entry PORT db url v code protocol host eff))
            = 201
            /\ snd (store_entry PORT db url v code protocol host eff)
               = <[code := new_entry url code
                             (Effects.now_expiry eff + v * 60 * 1000) eff]> db))
  /\ (forall fuel res db',
        createAlias isURL PORT fuel db body protocol host eff
        = Some (res, db') ->
        (status_of res = 201 ->
         exists n,
           (n < fuel)%nat
           /\ (forall i, (i < n)%nat ->
                 has db (nth_code (Effects.random eff) i) = true)
           /\ db !! nth_code (Effects.random eff) n = None
           /\ db' = <[nth_code (Effects.random eff) n :=
                       new_entry url (nth_code (Effects.random eff) n)
                         (Effects.now_expiry eff + v * 60 * 1000) eff]> db)
        /\ (error_of res = Some InternalError ->
            MAX_TIME < Z.abs (Effects.now_expiry eff + v * 60 * 1000))).
Proof.
  intros Hurl Hne Hok Hval Hs.
  destruct (validity_ok_minutes _ Hval) as [v Hv].
  exists v. split; [exact Hv|]. split.
  - intros n fuel Hcol Hfresh Hfuel code. split.
    + rewrite (createAlias_generated _ _ _ _ _ _ _ _ url v) by assumption.
      change 0%nat with (6 * 0)%nat.
      rewrite (generateUnique_after_collisions fuel db _ 0 n);
        [reflexivity|lia| |assumption].
      intros i Hi. apply Hcol. lia.
    + apply store_entry_outcome.
  - intros fuel res db' Hc.
    rewrite (createAlias_generated _ _ _ _ _ _ _ _ url v) in Hc by assumption.
    destruct (generateUnique fuel db (Effects.random eff) 0) as [code|] eqn:Hg;
      [|discriminate].
    change 0%nat with (6 * 0)%nat in Hg.
    destruct (generateUnique_shift _ _ _ _ _ Hg) as (n & Hn & -> & Hf & Hcol).
    injection Hc as Hc.
    destruct (store_entry_outcome PORT db url v
                (nth_code (Effects.random eff) n) protocol host eff)
      as [Hin Hout].
    destruct (Z.le_gt_cases
                (Z.abs (Effects.now_expiry eff + v * 60 * 1000)) MAX_TIME)
      as [Hle|Hgt].
    + destruct (Hin Hle) as [H201 Hdb]. rewrite Hc in H201, Hdb.
      simpl in H201, Hdb. split.
      * intros _. exists n. split; [lia|]. split.
        -- intros i Hi. apply Hcol. lia.
        -- split; [now apply has_false|exact Hdb].
      * intros Herr. unfold error_of in Herr. rewrite H201 in Herr.
        discriminate.
    + rewrite (Hout Hgt) in Hc. injection Hc as <- <-. split.
      * discriminate.
      * intros _. exact Hgt.
Qed.

(** Two collisions with the stored code, then a fresh code. *)
Lemma generation_loop_unbounded_witness :
  createAlias Demo.isURL Demo.PORT 3 Demo.generated Demo.body_generated
    None None (Demo.colliding_effects 2)
  = Some (Json 201 (CreatedBody "http://localhost:3000/bbbbbb" 1700001800000),
          <[ "bbbbbb" :=
               new_entry "https://example.com/other" "bbbbbb" 1700001800000
                 (Demo.colliding_effects 2) ]> Demo.generated).
Proof.
  destruct (generation_loop_unbounded Demo.isURL Demo.PORT Demo.generated
              Demo.body_generated None None (Demo.colliding_effects 2)
              "https://example.com/other"
              eq_refl ltac:(discriminate) eq_refl
              (or_introl eq_refl) eq_refl)
    as (v & Hv & Hrun & _).
  injection Hv as <-.
  refine (eq_trans (proj1 (Hrun 2%nat 3%nat _ _ _)) _).
  - intros i Hi.
    destruct i as [|[|i]]; [vm_compute; reflexivity..|lia].
  - vm_compute. reflexivity.
  - lia.
  - reflexivity.
Defined.

(** ** Expiry and creation instants *)

(** The two clock readings of a creation can lie a minute apart: the entry
    created with a validity of one minute then expires at the very instant
    it records as its creation. *)
Lemma expiry_equals_createdAt :
  createAlias Demo.isURL Demo.PORT 0 ∅ Demo.body (Some "http")
    (Some "sho.rt") Demo.late_effects
  = Some (Json 201 (CreatedBody "http://sho.rt/abc123" 1700000060000),
          {[ "abc123" := new_entry "https://example.com/page" "abc123"
                           1700000060000 Demo.late_effects ]})
  /\ Entry.expiry (new_entry "https://example.com/page" "abc123"
                     1700000060000 Demo.late_effects)
     = Entry.createdAt (new_entry "https://example.com/page" "abc123"
                          1700000060000 Demo.late_effects)
  /\ ~ Entry.expiry (new_entry "https://example.com/page" "abc123"
                       1700000060000 Demo.late_effects)
       > Entry.createdAt (new_entry "https://example.com/page" "abc123"
                            1700000060000 Demo.late_effects).
Proof.
  split; [vm_compute; reflexivity|]. split; [reflexivity|].
  vm_compute. intros H. discriminate H.
Qed.

(** C7, as the code has it.
    A creation that answers 201 inserts one entry.  Its
    validity [v] is the supplied positive integer, or 30 when none was
    supplied; its expiry is the clock reading of [calculateExpiry] plus [v]
    minutes, strictly after that reading; its creation instant is the second
    clock reading.  The expiry is strictly after the creation instant exactly
    when the second reading is less than [v] minutes after the first, as it
    is when the two readings are equal. *)
Theorem expiry_after_first_reading isURL PORT (fuel : nat) (db : store)
    (body : Body.t) (protocol host : option string) (eff : Effects.t)
    (res : response) (db' : store) :
  createAlias isURL PORT fuel db body protocol host eff = Some (res, db') ->
  status_of res = 201 ->
  exists code urlEntry v,
    db !! code = None /\ db' = <[code := urlEntry]> db
    /\ (Body.validity body = ValidityAbsent /\ v = 30
        \/ Body.validity body = ValidityInt v)
    /\ 0 < v
    /\ Entry.expiry urlEntry = Effects.now_expiry eff + v * 60 * 1000
    /\ Entry.expiry urlEntry > Effects.now_expiry eff
    /\ Entry.createdAt urlEntry = Effects.now_created eff
    /\ (Entry.expiry urlEntry > Entry.createdAt urlEntry
        <-> Effects.now_created eff < Effects.now_expiry eff + v * 60 * 1000)
    /\ (Effects.now_created eff = Effects.now_expiry eff ->
        Entry.expiry urlEntry > Entry.createdAt urlEntry).
Proof.
  intros Hc H201.
  destruct (createAlias_inv _ _ _ _ _ _ _ _ _ _ Hc)
    as [(Hn & _) | (url & v & code & _ & _ & Hv & _ & Hfresh & _ & _ & ->)];
    [contradiction|].
  destruct (validityMinutes_of_inr _ _ Hv) as [Hpos Hcase].
  exists code, (new_entry url code (Effects.now_expiry eff + v * 60 * 1000) eff), v.
  simpl. repeat split; try assumption; try reflexivity; try lia.
Qed.

Lemma expiry_after_first_reading_witness :
  exists code urlEntry,
    Demo.created = <[code := urlEntry]> ∅
    /\ Entry.expiry urlEntry > Entry.createdAt urlEntry.
Proof.
  destruct (expiry_after_first_reading Demo.isURL Demo.PORT 0 ∅ Demo.body
              (Some "http") (Some "sho.rt") Demo.effects _ _
              demo_createAlias eq_refl)
    as (code & urlEntry & v & _ & Hdb & _ & _ & _ & _ & _ & _ & Hgt).
  exists code, urlEntry. split; [exact Hdb|]. apply Hgt. reflexivity.
Defined.

(** ** The requester's address *)

(** The click that a redirect stores keeps the requester's address. *)
Lemma address_is_stored :
  (map Click.ip ∘ Entry.clicks)
    <$> snd (resolve Demo.created "abc123" Demo.req 1700000001000
               1700000001000) !! "abc123"
  = Some ["203.0.113.7"].
Proof. vm_compute. reflexivity. Qed.

Lemma address_blind_refl db : address_blind db db.
Proof.
  intros k. destruct (db !! k); constructor.
  split; [apply same_identity_refl|]. split; reflexivity.
Qed.

Lemma address_blind_has db1 db2 k :
  address_blind db1 db2 -> has db1 k = has db2 k.
Proof.
  intros H. unfold has. destruct (H k); reflexivity.
Qed.

Lemma address_blind_insert db1 db2 k e1 e2 :
  address_blind db1 db2 -> same_public e1 e2 ->
  address_blind (<[k := e1]> db1) (<[k := e2]> db2).
Proof.
  intros H He k'. destruct (decide (k = k')) as [->|Hne].
  - rewrite !lookup_insert_eq. now constructor.
  - rewrite !lookup_insert_ne by assumption. apply H.
Qed.

Lemma generateUnique_blind fuel db1 db2 rnd :
  address_blind db1 db2 ->
  forall pos, generateUnique fuel db1 rnd pos = generateUnique fuel db2 rnd pos.
Proof.
  intros H. induction fuel as [|fuel IH]; intros pos; [reflexivity|].
  cbn [generateUnique]. destruct (generateShortCode rnd pos) as [code pos'].
  rewrite (address_blind_has _ _ code H), IH. reflexivity.
Qed.

Lemma createAlias_blind isURL PORT fuel db1 db2 body protocol host eff :
  address_blind db1 db2 ->
  fst <$> createAlias isURL PORT fuel db1 body protocol host eff
  = fst <$> createAlias isURL PORT fuel db2 body protocol host eff
  /\ (forall r1 r2 d1 d2,
        createAlias isURL PORT fuel db1 body protocol host eff = Some (r1, d1) ->
        createAlias isURL PORT fuel db2 body protocol host eff = Some (r2, d2) ->
        address_blind d1 d2).
Proof.
  intros H. unfold createAlias.
  destruct (negb (truthy (Body.url body)));
    [split; [reflexivity|intros ? ? ? ? [= <- <-] [= <- <-]; exact H]|].
  destruct (negb (isURL (or_default (Body.url body) "")));
    [split; [reflexivity|intros ? ? ? ? [= <- <-] [= <- <-]; exact H]|].
  destruct (validityMinutes_of (Body.validity body)) as [early|v];
    [split; [reflexivity|intros ? ? ? ? [= <- <-] [= <- <-]; exact H]|].
  assert (Hf : finalShortcode_of fuel db1 (Body.shortcode body)
                 (Effects.random eff)
               = finalShortcode_of fuel db2 (Body.shortcode body)
                   (Effects.random eff)).
  { unfold finalShortcode_of.
    rewrite (address_blind_has _ _ (or_default (Body.shortcode body) "") H).
    rewrite (generateUnique_blind fuel db1 db2 _ H). reflexivity. }
  rewrite Hf.
  destruct (finalShortcode_of fuel db2 (Body.shortcode body)
              (Effects.random eff)) as [[early|code]|];
    [split; [reflexivity|intros ? ? ? ? [= <- <-] [= <- <-]; exact H]
    | |split; [reflexivity|discriminate]].
  unfold store_entry.
  destruct (calculateExpiry (Effects.now_expiry eff) v) as [expiryDate|];
    [|split; [reflexivity|intros ? ? ? ? [= <- <-] [= <- <-]; exact H]].
  split; [reflexivity|].
  intros ? ? ? ? [= <- <-] [= <- <-].
  apply address_blind_insert; [exact H|].
  split; [apply same_identity_refl|]. split; reflexivity.
Qed.

Lemma detail_of_clickData req1 req2 now :
  same_but_address req1 req2 ->
  detail_of (clickData_of req1 now) = detail_of (clickData_of req2 now).
Proof.
  intros (Hua & Href & Hloc). unfold detail_of, clickData_of. simpl.
  rewrite Hua, Href, Hloc. reflexivity.
Qed.

(** The address a click stores: [req.ip], else the address of the
    connection, else ["Unknown"]. *)
Lemma clickData_of_ip req now :
  (forall address,
     Req.ip req = Some address -> address <> "" ->
     Click.ip (clickData_of req now) = address)
  /\ (forall address,
        truthy (Req.ip req) = false ->
        Req.remoteAddress req = Some address -> address <> "" ->
        Click.ip (clickData_of req now) = address)
  /\ (truthy (Req.ip req) = false ->
      truthy (Req.remoteAddress req) = false ->
      Click.ip (clickData_of req now) = "Unknown").
Proof.
  unfold clickData_of, or_else. cbn [Click.ip].
  split; [|split].
  - intros address -> Hne. simpl.
    destruct (String.eqb_spec address ""); [contradiction|]. simpl.
    destruct (String.eqb_spec address ""); [contradiction|reflexivity].
  - intros address Hip -> Hne. rewrite Hip. simpl.
    destruct (String.eqb_spec address ""); [contradiction|reflexivity].
  - intros Hip Hra. rewrite Hip.
    destruct (Req.remoteAddress req) as [s|]; [|reflexivity].
    simpl in *. destruct (String.eqb s ""); [reflexivity|discriminate].
Qed.

(** C9, as the code has it.
    The requester's address is kept in the stored click: the click that a
    redirect appends has in its [ip] field the address of the request
    ([req.ip], else the address of the connection), and ["Unknown"] when the
    request has none.  It is no part of the public output: an entry of
    [clickDetails] has the four fields timestamp, referer, userAgent and
    location of the click and nothing else.  So two stores that differ at
    most in the addresses of their clicks give the same statistics for every
    shortcode, and stay so related, with equal responses, under creations
    and under redirects whose requests differ at most in an address that
    resolves to the same place. *)
Theorem address_only_through_location isURL PORT (db1 db2 : store) :
  address_blind db1 db2 ->
  (forall click,
     detail_of click
     = {| Detail.timestamp := Click.timestamp click;
          Detail.referer := Click.referer click;
          Detail.userAgent := Click.userAgent click;
          Detail.location := Click.location click |})
  /\ (forall shortcode,
        fst (getStatistics db1 shortcode) = fst (getStatistics db2 shortcode)
        /\ address_blind (snd (getStatistics db1 shortcode))
             (snd (getStatistics db2 shortcode)))
  /\ (forall shortcode req1 req2 now_check now_click,
        same_but_address req1 req2 ->
        fst (resolve db1 shortcode req1 now_check now_click)
        = fst (resolve db2 shortcode req2 now_check now_click)
        /\ address_blind (snd (resolve db1 shortcode req1 now_check now_click))
             (snd (resolve db2 shortcode req2 now_check now_click)))
  /\ (forall fuel body protocol host eff,
        fst <$> createAlias isURL PORT fuel db1 body protocol host eff
        = fst <$> createAlias isURL PORT fuel db2 body protocol host eff
        /\ forall r1 r2 d1 d2,
             createAlias isURL PORT fuel db1 body protocol host eff
             = Some (r1, d1) ->
             createAlias isURL PORT fuel db2 body protocol host eff
             = Some (r2, d2) ->
             address_blind d1 d2)
  /\ (forall shortcode req now_check now_click url,
        fst (resolve db1 shortcode req now_check now_click) = Redirect url ->
        exists urlEntry urlEntry' clickData,
          db1 !! shortcode = Some urlEntry
          /\ snd (resolve db1 shortcode req now_check now_click) !! shortcode
             = Some urlEntry'
          /\ Entry.clicks urlEntry'
             = (Entry.clicks urlEntry ++ [clickData])%list
          /\ (forall address,
                Req.ip req = Some address -> address <> "" ->
                Click.ip clickData = address)
          /\ (forall address,
                truthy (Req.ip req) = false ->
                Req.remoteAddress req = Some address -> address <> "" ->
                Click.ip clickData = address)
          /\ (truthy (Req.ip req) = false ->
              truthy (Req.remoteAddress req) = false ->
              Click.ip clickData = "Unknown")).
Proof.
  intros H. split; [reflexivity|]. split; [|split; [|split]].
  - intros shortcode. rewrite !getStatistics_store. split; [|exact H].
    unfold getStatistics. destruct (isValidShortcode shortcode); [|reflexivity].
    simpl. destruct (H shortcode) as [e1 e2 (Hid & Hcount & Hclicks)|];
      [|reflexivity].
    destruct Hid as (_ & Hurl & _ & Hcreated & Hexp). simpl.
    rewrite Hurl, Hcreated, Hexp, Hcount, Hclicks. reflexivity.
  - intros shortcode req1 req2 now_check now_click Hreq. unfold resolve.
    destruct (isValidShortcode shortcode); [|split; [reflexivity|exact H]].
    simpl. destruct (H shortcode) as [e1 e2 Hpub|];
      [|split; [reflexivity|exact H]].
    destruct Hpub as (Hid & Hcount & Hclicks).
    pose proof Hid as (Hi & Hurl & Hsc & Hcreated & Hexp).
    rewrite Hexp.
    destruct (isExpired now_check (Entry.expiry e1));
      [split; [reflexivity|exact H]|].
    split; [simpl; now rewrite Hurl|].
    apply address_blind_insert; [exact H|].
    split; [repeat split; assumption|]. simpl.
    split; [now rewrite Hcount|].
    rewrite !map_app, Hclicks. simpl.
    now rewrite (detail_of_clickData req1 req2 now_click Hreq).
  - intros fuel body protocol host eff. now apply createAlias_blind.
  - intros shortcode req now_check now_click url Hred.
    destruct (resolve db1 shortcode req now_check now_click) as [res db'] eqn:Hr.
    simpl in Hred. subst res.
    destruct (resolve_inv _ _ _ _ _ _ _ Hr)
      as [([k Hk] & _) | (urlEntry & _ & Hl & _ & _ & ->)]; [discriminate Hk|].
    exists urlEntry, (record_click urlEntry (clickData_of req now_click)),
      (clickData_of req now_click).
    split; [exact Hl|]. split; [apply lookup_insert_eq|].
    split; [reflexivity|]. apply clickData_of_ip.
Qed.

(** The same redirect from two addresses of the same place. *)
Lemma address_only_through_location_witness :
  address_blind Demo.created Demo.created
  /\ Req.ip Demo.req <> Req.ip Demo.req_elsewhere
  /\ fst (resolve Demo.created "abc123" Demo.req 1700000001000 1700000001000)
     = fst (resolve Demo.created "abc123" Demo.req_elsewhere 1700000001000
              1700000001000).
Proof.
  split; [apply address_blind_refl|]. split; [discriminate|].
  refine (proj1 (proj1 (proj2 (proj2
    (address_only_through_location Demo.isURL Demo.PORT Demo.created
       Demo.created (address_blind_refl _))))
    "abc123" Demo.req Demo.req_elsewhere 1700000001000 1700000001000 _)).
  repeat split; vm_compute; reflexivity.
Defined.

(** The two stores differ, by the address of the click; their statistics do
    not. *)
Example demo_statistics_address_blind :
  snd (resolve Demo.created "abc123" Demo.req 1700000001000 1700000001000)
  <> snd (resolve Demo.created "abc123" Demo.req_elsewhere 1700000001000
            1700000001000)
  /\ fst (getStatistics
            (snd (resolve Demo.created "abc123" Demo.req 1700000001000
                    1700000001000)) "abc123")
     = fst (getStatistics
              (snd (resolve Demo.created "abc123" Demo.req_elsewhere
                      1700000001000 1700000001000)) "abc123").
Proof.
  split; [|vm_compute; reflexivity].
  vm_compute. intros H. discriminate H.
Qed.

(** * Further properties of the handlers *)

(** ** Creation and its round trip *)

Lemma isValidShortcode_nonempty code :
  isValidShortcode code = true -> truthy (Some code) = true.
Proof.
  destruct code as [|c code]; [discriminate|reflexivity].
Qed.

(** X1.  A creation with a url that [isURL] accepts, a validity that is
    absent (30 minutes) or a positive integer, a custom shortcode that passes
    the format check and is no key of the store, and an expiry date in the
    range of valid dates answers 201 with the link
    [protocol://host/shortcode] (defaults "http" and "localhost:PORT") and
    the expiry, and stores one entry with no click under the shortcode. *)
Theorem createAlias_custom_succeeds isURL PORT (fuel : nat) (db : store)
    (body : Body.t) (protocol host : option string) (eff : Effects.t)
    (url code : string) (v : Z) :
  Body.url body = Some url -> url <> "" -> isURL url = true ->
  (Body.validity body = ValidityAbsent /\ v = 30
   \/ Body.validity body = ValidityInt v /\ 0 < v) ->
  Body.shortcode body = Some code -> isValidShortcode code = true ->
  db !! code = None ->
  Z.abs (Effects.now_expiry eff + v * 60 * 1000) <= MAX_TIME ->
  createAlias isURL PORT fuel db body protocol host eff
  = Some (Json 201
            (CreatedBody
               (or_default protocol "http" ++ "://"
                ++ or_default host ("localhost:" ++ PORT) ++ "/" ++ code)
               (Effects.now_expiry eff + v * 60 * 1000)),
          <[code := new_entry url code
                      (Effects.now_expiry eff + v * 60 * 1000) eff]> db).
Proof.
  intros Hurl Hne Hok Hval Hcode Hfmt Hfresh Hrange.
  assert (Hv : validityMinutes_of (Body.validity body) = inr v).
  { destruct Hval as [[-> ->]|[-> Hpos]]; simpl; [reflexivity|].
    destruct (Z.leb_spec v 0); [lia|reflexivity]. }
  pose proof (isValidShortcode_nonempty _ Hfmt) as Ht.
  unfold createAlias. rewrite Hurl. simpl.
  destruct (String.eqb_spec url ""); [contradiction|]. simpl.
  rewrite Hok, Hv. simpl.
  unfold finalShortcode_of. rewrite Hcode, Ht.
  assert (Hd : or_default (Some code) "" = code).
  { simpl. simpl in Ht. destruct (String.eqb code ""); [discriminate|reflexivity]. }
  rewrite Hd, Hfmt. simpl.
  apply has_false in Hfresh. rewrite Hfresh.
  unfold store_entry, calculateExpiry, toISOString.
  destruct (Z.leb_spec (Z.abs (Effects.now_expiry eff + v * 60 * 1000)) MAX_TIME);
    [reflexivity|lia].
Qed.

Lemma createAlias_custom_succeeds_witness :
  createAlias Demo.isURL Demo.PORT 0 ∅ Demo.body None None Demo.effects
  = Some (Json 201 (CreatedBody "http://localhost:3000/abc123" 1700000060000),
          Demo.created).
Proof.
  exact (createAlias_custom_succeeds Demo.isURL Demo.PORT 0 ∅ Demo.body
           None None Demo.effects "https://example.com/page" "abc123" 1
           eq_refl ltac:(discriminate) eq_refl
           (or_intror (conj eq_refl eq_refl)) eq_refl eq_refl
           (lookup_empty _)
           ltac:(vm_compute; discriminate)).
Defined.



(** ** Runs of the service *)

(** X3.  In the store at the end of a run from the empty store, the clicks
    of an entry are exactly the clicks of the redirect requests for its
    shortcode that the run answered with a redirect, in the order of the run,
    and its counter is their number; the statistics of the shortcode report
    that number as [totalClicks] and those clicks, in that order, as
    [clickDetails]. *)
Theorem clicks_are_the_redirects isURL PORT (trace : list (request * response))
    (db : store) :
  steps isURL PORT ∅ trace db ->
  forall k urlEntry, db !! k = Some urlEntry ->
    Entry.clicks urlEntry = redirect_clicks k trace
    /\ Entry.clickCount urlEntry
       = Z.of_nat (List.length (redirect_clicks k trace))
    /\ exists statistics,
         fst (getStatistics db k) = Json 200 (StatisticsBody statistics)
         /\ Stats.totalClicks statistics
            = Z.of_nat (List.length (redirect_clicks k trace))
         /\ Stats.clickDetails statistics
            = map detail_of (redirect_clicks k trace).
Proof.
  intros Hrun k e Hk.
  destruct (steps_clicks _ _ _ _ _ Hrun k e Hk) as [Hcl Hct].
  unfold clicks_at, count_at in *. rewrite lookup_empty in Hcl, Hct.
  simpl in Hcl, Hct.
  assert (Hreach : reachable isURL PORT db)
    by (apply reachable_iff_steps; eauto).
  destruct (reachable_keys_valid _ _ _ Hreach k e Hk) as [Hv _].
  split; [exact Hcl|]. split; [exact Hct|].
  unfold getStatistics. rewrite Hv, Hk. simpl.
  eexists. split; [reflexivity|]. simpl. rewrite Hct, Hcl. split; reflexivity.
Qed.

Lemma demo_run : steps Demo.isURL Demo.PORT ∅ demo_trace Demo.clicked.
Proof.
  eapply steps_cons;
    [eapply step_create; [exact demo_draws|exact demo_createAlias]|].
  eapply steps_cons; [apply step_resolve; exact demo_resolve|].
  apply steps_nil.
Qed.

Lemma clicks_are_the_redirects_witness :
  steps Demo.isURL Demo.PORT ∅ demo_trace Demo.clicked
  /\ exists urlEntry,
       Demo.clicked !! "abc123" = Some urlEntry
       /\ Entry.clicks urlEntry = [clickData_of Demo.req 1700000001000].
Proof.
  split; [exact demo_run|].
  eexists. split; [vm_compute; reflexivity|].
  refine (proj1 (clicks_are_the_redirects Demo.isURL Demo.PORT demo_trace
                   Demo.clicked demo_run "abc123" _ _)).
  vm_compute. reflexivity.
Defined.




(** X18.  The creation on bodies of strings is the creation on any body,
    restricted.  On a body of strings the two agree.  A creation on any body
    either leaves the string-keyed entries alone or changes them as
    [createAlias] does on a body of strings, with the same response.  So a
    run on any bodies is, on the string-keyed entries, a run of the service
    on bodies of strings, and the string-keyed part of every database the
    service can be in is a reachable store. *)
Theorem json_runs_are_string_runs isURL PORT :
  (forall fuel db body protocol host eff,
     createAlias_json isURL PORT fuel db (json_body body) protocol host eff
     = (fun out => (fst out, on_strings db (snd out)))
       <$> createAlias isURL PORT fuel (Database.strings db) body protocol
             host eff)
  /\ (forall fuel db body protocol host eff res db',
        createAlias_json isURL PORT fuel db body protocol host eff
        = Some (res, db') ->
        Database.strings db' = Database.strings db
        \/ exists url,
             RawBody.url body = Some (JString url)
             /\ createAlias isURL PORT fuel (Database.strings db)
                  (string_body url body) protocol host eff
                = Some (res, Database.strings db'))
  /\ (forall db trace db',
        json_steps isURL PORT db trace db' ->
        exists trace',
          steps isURL PORT (Database.strings db) trace' (Database.strings db'))
  /\ (forall trace db,
        json_steps isURL PORT empty_database trace db ->
        reachable isURL PORT (Database.strings db)).
Proof.
  split; [apply createAlias_json_strings|]. split; [|split].
  - apply createAlias_json_string_part.
  - intros db trace db'. apply json_steps_string_part.
  - intros trace db Hrun.
    destruct (json_steps_string_part _ _ _ _ _ Hrun) as [trace' H].
    apply reachable_iff_steps. exists trace'. exact H.
Qed.

(** X5.  What a shortcode resolves to is fixed by its entry at any point of
    a run: from then on a redirect request for it is answered with the
    original URL of that entry whenever the check instant is not after the
    expiry of that entry, and with 410 and no change whenever it is; the
    statistics keep reporting that URL, creation instant and expiry. *)
Theorem resolution_is_stable isURL PORT (db : store)
    (trace : list (request * response)) (db' : store) (k : string)
    (urlEntry : Entry.t) :
  steps isURL PORT db trace db' ->
  db !! k = Some urlEntry -> isValidShortcode k = true ->
  (forall req now_check now_click,
     now_check <= Entry.expiry urlEntry ->
     fst (resolve db' k req now_check now_click)
     = Redirect (Entry.originalUrl urlEntry))
  /\ (forall req now_check now_click,
        now_check > Entry.expiry urlEntry ->
        resolve db' k req now_check now_click = (expired, db'))
  /\ exists statistics,
       fst (getStatistics db' k) = Json 200 (StatisticsBody statistics)
       /\ Stats.originalUrl statistics = Entry.originalUrl urlEntry
       /\ Stats.creationDate statistics = Entry.createdAt urlEntry
       /\ Stats.expiryDate statistics = Entry.expiry urlEntry.
Proof.
  intros Hrun Hk Hfmt.
  destruct (steps_keep_entries _ _ _ _ _ Hrun k urlEntry Hk)
    as (e' & He' & (_ & Hurl & _ & Hcreated & Hexp) & _).
  split; [|split].
  - intros req now_check now_click Hle. unfold resolve.
    rewrite Hfmt, He'. unfold isExpired. simpl. rewrite Hexp.
    destruct (Z.gtb_spec now_check (Entry.expiry urlEntry)); [lia|].
    simpl. now rewrite Hurl.
  - intros req now_check now_click Hgt. unfold resolve.
    rewrite Hfmt, He'. unfold isExpired. simpl. rewrite Hexp.
    destruct (Z.gtb_spec now_check (Entry.expiry urlEntry)); [reflexivity|lia].
  - unfold getStatistics. rewrite Hfmt, He'. simpl.
    eexists. split; [reflexivity|]. simpl. repeat split; assumption.
Qed.

Lemma resolution_is_stable_witness :
  resolve Demo.clicked "abc123" Demo.req_elsewhere 1700000060001
    1700000060001
  = (expired, Demo.clicked).
Proof.
  refine (proj1 (proj2 (resolution_is_stable Demo.isURL Demo.PORT Demo.created
            [(GetShortcode "abc123" Demo.req 1700000001000 1700000001000,
              Redirect "https://example.com/page")]
            Demo.clicked "abc123"
            (new_entry "https://example.com/page" "abc123" 1700000060000
               Demo.effects) _ _ eq_refl))
            Demo.req_elsewhere 1700000060001 1700000060001 _).
  - eapply steps_cons; [apply step_resolve; exact demo_resolve|apply steps_nil].
  - vm_compute. reflexivity.
  - vm_compute. reflexivity.
Defined.

Lemma created_count_cons rq res trace :
  created_count ((rq, res) :: trace)
  = ((if decide (status_of res = 201)%Z then 1 else 0) + created_count trace)%nat.
Proof.
  unfold created_count. rewrite filter_cons. simpl.
  destruct (decide (status_of res = 201)); reflexivity.
Qed.

(** X6.  Along a run the store only grows, by exactly one key for every
    request answered 201: its size at the end is its size at the start plus
    the number of 201 responses, and every key of the start is a key of the
    end. *)
Theorem store_grows_by_creations isURL PORT (db : store)
    (trace : list (request * response)) (db' : store) :
  steps isURL PORT db trace db' ->
  size db' = (size db + created_count trace)%nat /\ dom db ⊆ dom db'.
Proof.
  induction 1 as [db|db rq res db1 trace db2 Hstep Hrest [IHs IHd]].
  - split; [unfold created_count; simpl; lia|reflexivity].
  - rewrite created_count_cons, IHs.
    assert (H1 : size db1
                 = (size db + if decide (status_of res = 201)%Z then 1 else 0)%nat
                 /\ dom db ⊆ dom db1).
    { inversion Hstep as [fuel d body protocol host eff r d' Hr Hc
                         | d shortcode r d' Hs
                         | d shortcode req now_check now_click r d' Hs]; subst.
      - destruct (createAlias_inv _ _ _ _ _ _ _ _ _ _ Hc)
          as [(Hn & _ & ->)
             | (url & v & code & _ & _ & _ & _ & Hfresh & _ & H201 & ->)].
        + destruct (decide (status_of res = 201)); [contradiction|].
          split; [lia|reflexivity].
        + destruct (decide (status_of res = 201)); [|contradiction].
          rewrite map_size_insert_None by assumption.
          split; [lia|]. rewrite dom_insert_L. apply union_subseteq_r.
      - pose proof (getStatistics_store db shortcode) as E. rewrite Hs in E.
        simpl in E. subst db1.
        assert (status_of res <> 201).
        { unfold getStatistics in Hs.
          destruct (isValidShortcode shortcode); simpl in Hs;
            [destruct (db !! shortcode)|]; injection Hs as <-; discriminate. }
        destruct (decide (status_of res = 201)); [contradiction|].
        split; [lia|reflexivity].
      - destruct (resolve_inv _ _ _ _ _ _ _ Hs)
          as [(Herr & ->) | (urlEntry & Hv & Hl & _ & -> & ->)].
        + assert (status_of res <> 201).
          { intros E. destruct Herr as [x Hx]. unfold error_of in Hx.
            rewrite E in Hx. discriminate. }
          destruct (decide (status_of res = 201)); [contradiction|].
          split; [lia|reflexivity].
        + simpl. rewrite map_size_insert_Some by eauto.
          split; [lia|]. rewrite dom_insert_L. apply union_subseteq_r. }
    destruct H1 as [Hs1 Hd1]. split; [lia|]. etrans; eassumption.
Qed.

Lemma store_grows_by_creations_witness :
  steps Demo.isURL Demo.PORT ∅ demo_trace Demo.clicked
  /\ size Demo.clicked = (size (∅ : store) + created_count demo_trace)%nat.
Proof.
  split; [exact demo_run|].
  exact (proj1 (store_grows_by_creations Demo.isURL Demo.PORT ∅ demo_trace
                  Demo.clicked demo_run)).
Defined.

(** ** What is stored is well formed *)

Lemma or_default_nonempty v d : d <> "" -> or_default v d <> "".
Proof.
  intros Hd. destruct v as [s|]; simpl; [|exact Hd].
  destruct (String.eqb_spec s ""); assumption.
Qed.

Lemma location_of_stored_ip (ip : option string) :
  getLocationFromIP ip = getLocationFromIP (Some (or_default ip "Unknown")).
Proof.
  destruct ip as [s|]; [|reflexivity].
  unfold or_default. destruct (String.eqb_spec s "") as [->|_]; reflexivity.
Qed.

Lemma clickData_of_ok req now : click_ok (clickData_of req now).
Proof.
  unfold click_ok, clickData_of. cbn [Click.userAgent Click.referer Click.ip
                                      Click.location].
  split; [apply or_default_nonempty; discriminate|].
  split; [apply or_default_nonempty; discriminate|].
  split; [apply or_default_nonempty; discriminate|].
  apply location_of_stored_ip.
Qed.

(** X7.  In every reachable store every entry holds a non-empty original URL
    that [isURL] accepts, an expiry that is a valid date, and a counter that
    is not negative; and every click it holds has a non-empty user agent,
    referer and address, and as its place the resolver's answer for the
    address it holds. *)
Theorem stored_entries_well_formed isURL PORT (db : store) :
  reachable isURL PORT db ->
  forall k urlEntry, db !! k = Some urlEntry ->
    Entry.originalUrl urlEntry <> ""
    /\ isURL (Entry.originalUrl urlEntry) = true
    /\ Z.abs (Entry.expiry urlEntry) <= MAX_TIME
    /\ 0 <= Entry.clickCount urlEntry
    /\ Forall click_ok (Entry.clicks urlEntry).
Proof.
  induction 1 as [|db rq res db' Hreach IH Hstep]; intros k e Hk.
  - rewrite lookup_empty in Hk. discriminate.
  - inversion Hstep as [fuel d body protocol host eff r d' Hr Hc
                       | d shortcode r d' Hs
                       | d shortcode req now_check now_click r d' Hs]; subst.
    + destruct (createAlias_inv _ _ _ _ _ _ _ _ _ _ Hc)
        as [(_ & _ & ->)
           | (url & v & code & Hurl & Hok & _ & _ & _ & Hin & H201 & ->)];
        [eauto|].
      destruct (decide (code = k)) as [->|Hne].
      * rewrite lookup_insert_eq in Hk. injection Hk as <-. simpl.
        split.
        { intros ->. unfold createAlias in Hc. rewrite Hurl in Hc.
          simpl in Hc. injection Hc as Hc _. subst res. discriminate H201. }
        split; [exact Hok|]. split; [exact Hin|]. split; [lia|constructor].
      * rewrite lookup_insert_ne in Hk by assumption. eauto.
    + pose proof (getStatistics_store db shortcode) as E. rewrite Hs in E.
      simpl in E. subst db'. eauto.
    + destruct (resolve_inv _ _ _ _ _ _ _ Hs)
        as [(_ & ->) | (urlEntry & Hv & Hl & _ & -> & ->)]; [eauto|].
      destruct (decide (shortcode = k)) as [->|Hne].
      * rewrite lookup_insert_eq in Hk. injection Hk as <-.
        destruct (IH _ _ Hl) as (H1 & H2 & H3 & H4 & H5). simpl.
        split; [exact H1|]. split; [exact H2|]. split; [exact H3|].
        split; [lia|].
        apply Forall_app. split; [exact H5|].
        constructor; [apply clickData_of_ok|constructor].
      * rewrite lookup_insert_ne in Hk by assumption. eauto.
Qed.

Lemma stored_entries_well_formed_witness :
  reachable Demo.isURL Demo.PORT Demo.clicked
  /\ Forall click_ok [clickData_of Demo.req 1700000001000].
Proof.
  split; [exact demo_clicked_reachable|].
  refine (proj2 (proj2 (proj2 (proj2
    (stored_entries_well_formed Demo.isURL Demo.PORT Demo.clicked
       demo_clicked_reachable "abc123"
       (record_click
          (new_entry "https://example.com/page" "abc123" 1700000060000
             Demo.effects)
          (clickData_of Demo.req 1700000001000)) _))))).
  vm_compute. reflexivity.
Defined.

(** ** The code space *)

Lemma append_assoc (s1 s2 s3 : string) : (s1 ++ s2) ++ s3 = s1 ++ (s2 ++ s3).
Proof.
  induction s1 as [|c s1 IH]; [reflexivity|].
  rewrite !append_cons. now rewrite IH.
Qed.

Lemma append_empty_r (s : string) : s ++ "" = s.
Proof.
  induction s as [|c s IH]; [reflexivity|]. rewrite append_cons. now rewrite IH.
Qed.

Lemma append_chars_chars_of rnd n : forall pos result,
  append_chars rnd pos n result = result ++ chars_of rnd pos n.
Proof.
  induction n as [|n IH]; intros pos result; simpl.
  - now rewrite append_empty_r.
  - rewrite IH. apply append_assoc.
Qed.

(** Every index of the alphabet is found again from its character: the
    characters of [chars] are pairwise distinct. *)
Lemma index_charAt_chars (d : nat) :
  (d < String.length chars)%nat ->
  String.index 0 (charAt chars d) chars = Some d.
Proof.
  intros Hd.
  do 62 (destruct d as [|d]; [vm_compute; reflexivity|]).
  simpl in Hd. lia.
Qed.

Lemma chars_of_injective r1 r2 n : forall p1 p2,
  draws_in_range r1 -> draws_in_range r2 ->
  chars_of r1 p1 n = chars_of r2 p2 n ->
  forall j, (j < n)%nat -> r1 (p1 + j)%nat = r2 (p2 + j)%nat.
Proof.
  induction n as [|n IH]; intros p1 p2 H1 H2 Heq j Hj; [lia|].
  simpl in Heq.
  destruct (charAt_chars_alnum (r1 p1) (H1 p1)) as [c1 [E1 _]].
  destruct (charAt_chars_alnum (r2 p2) (H2 p2)) as [c2 [E2 _]].
  rewrite E1, E2, !append_cons in Heq. injection Heq as Hc Hrest.
  destruct j as [|j].
  - rewrite !Nat.add_0_r.
    assert (Hidx : String.index 0 (charAt chars (r1 p1)) chars
                   = String.index 0 (charAt chars (r2 p2)) chars)
      by (rewrite E1, E2, Hc; reflexivity).
    rewrite !index_charAt_chars in Hidx by auto. now injection Hidx.
  - rewrite !Nat.add_succ_r, <- !Nat.add_succ_l.
    apply (IH (S p1) (S p2) H1 H2 Hrest). lia.
Qed.

Lemma chars_of_ext r1 r2 n : forall p1 p2,
  (forall j, (j < n)%nat -> r1 (p1 + j)%nat = r2 (p2 + j)%nat) ->
  chars_of r1 p1 n = chars_of r2 p2 n.
Proof.
  induction n as [|n IH]; intros p1 p2 H; [reflexivity|].
  simpl. pose proof (H 0%nat ltac:(lia)) as H0.
  rewrite !Nat.add_0_r in H0. rewrite H0. f_equal.
  apply IH. intros j Hj. specialize (H (S j) ltac:(lia)).
  now rewrite !Nat.add_succ_r in H.
Qed.

(** X8.  Two generated codes are equal exactly when their six draws are
    equal, one by one: the 62 characters of the alphabet are pairwise
    distinct, so the generator reaches 62^6 different codes and two requests
    collide only on the same six draws. *)
Theorem generateShortCode_injective (r1 r2 : random_source) (p1 p2 : nat) :
  draws_in_range r1 -> draws_in_range r2 ->
  fst (generateShortCode r1 p1) = fst (generateShortCode r2 p2)
  <-> forall j, (j < 6)%nat -> r1 (p1 + j)%nat = r2 (p2 + j)%nat.
Proof.
  intros H1 H2. unfold generateShortCode. cbn [fst].
  rewrite !append_chars_chars_of.
  change ("" ++ chars_of r1 p1 6) with (chars_of r1 p1 6).
  change ("" ++ chars_of r2 p2 6) with (chars_of r2 p2 6).
  split.
  - now apply chars_of_injective.
  - now apply chars_of_ext.
Qed.

Lemma generateShortCode_injective_witness :
  fst (generateShortCode (colliding_draws 1) 0)
  <> fst (generateShortCode (colliding_draws 1) 6).
Proof.
  intros Heq.
  pose proof (proj1 (generateShortCode_injective (colliding_draws 1)
                       (colliding_draws 1) 0 6 (colliding_draws_range 1)
                       (colliding_draws_range 1)) Heq 0%nat ltac:(lia)) as H.
  vm_compute in H. discriminate H.
Defined.

(** ** The hash of the location resolver *)

Lemma to_int32_decomp z : exists k, to_int32 z = z + k * 2 ^ 32.
Proof.
  unfold to_int32. exists (- ((z + 2 ^ 31) / 2 ^ 32)).
  pose proof (Z.div_mod (z + 2 ^ 31) (2 ^ 32) ltac:(lia)). lia.
Qed.

Lemma to_int32_add_mul z k : to_int32 (z + k * 2 ^ 32) = to_int32 z.
Proof.
  unfold to_int32.
  replace (z + k * 2 ^ 32 + 2 ^ 31) with (z + 2 ^ 31 + k * 2 ^ 32) by lia.
  now rewrite Z.mod_add by lia.
Qed.

Lemma to_int32_small z : - 2 ^ 31 <= z < 2 ^ 31 -> to_int32 z = z.
Proof.
  intros Hz. unfold to_int32. rewrite Z.mod_small by lia. lia.
Qed.

Lemma hash_step_poly x b : hash_step (to_int32 x) b = to_int32 (poly31_step x b).
Proof.
  unfold hash_step, poly31_step. cbv zeta. rewrite Z.land_diag.
  rewrite (to_int32_small (to_int32 _)) by apply to_int32_range.
  rewrite (to_int32_small (to_int32 x)) by apply to_int32_range.
  rewrite Z.shiftl_mul_pow2 by lia.
  destruct (to_int32_decomp x) as [k0 E0].
  destruct (to_int32_decomp (to_int32 x * 2 ^ 5)) as [k1 E1].
  rewrite E1, E0.
  replace ((x + k0 * 2 ^ 32) * 2 ^ 5 + k1 * 2 ^ 32 - (x + k0 * 2 ^ 32)
           + Z.of_nat (nat_of_ascii b))
    with (31 * x + Z.of_nat (nat_of_ascii b) + (31 * k0 + k1) * 2 ^ 32) by lia.
  apply to_int32_add_mul.
Qed.

Lemma fold_left_cons {A B} (f : A -> B -> A) (b : B) (l : list B) (a : A) :
  fold_left f (b :: l) a = fold_left f l (f a b).
Proof. reflexivity. Qed.

Lemma fold_hash_step_poly l : forall x,
  fold_left hash_step l (to_int32 x) = to_int32 (fold_left poly31_step l x).
Proof.
  induction l as [|b l IH]; intros x; [reflexivity|].
  rewrite !fold_left_cons, hash_step_poly. apply IH.
Qed.

Lemma list_ascii_of_string_append s1 s2 :
  list_ascii_of_string (s1 ++ s2)
  = (list_ascii_of_string s1 ++ list_ascii_of_string s2)%list.
Proof.
  induction s1 as [|c s1 IH]; [reflexivity|].
  rewrite append_cons. simpl. now rewrite IH.
Qed.

(** X9.  The hash of an address is the polynomial
    [c0 * 31^(n-1) + ... + c(n-1)] of its character codes, wrapped to a
    signed 32-bit integer: the shifts, the subtraction and the [a & a] of the
    reducer compute [31 * a + code] modulo 2^32 at every character, so the
    hash of [s] followed by [c] is [31 * hash s + code c] wrapped, and the
    hash always lies in the signed 32-bit range. *)
Theorem ip_hash_is_poly31 (s : string) :
  ip_hash s = to_int32 (poly31 s)
  /\ - 2 ^ 31 <= ip_hash s < 2 ^ 31
  /\ forall c,
       ip_hash (s ++ String c "") = to_int32 (poly31_step (ip_hash s) c).
Proof.
  assert (H0 : (0 : Z) = to_int32 0) by reflexivity.
  assert (Hp : ip_hash s = to_int32 (poly31 s)).
  { unfold ip_hash, poly31. rewrite H0 at 1. apply fold_hash_step_poly. }
  split; [exact Hp|]. split; [rewrite Hp; apply to_int32_range|].
  intros c. unfold ip_hash at 1.
  rewrite list_ascii_of_string_append, fold_left_app.
  change (list_ascii_of_string (String c "")) with [c].
  rewrite fold_left_cons. change (fold_left hash_step [] ?a) with a.
  fold (ip_hash s).
  rewrite <- (to_int32_small (ip_hash s)) at 1
    by (rewrite Hp; apply to_int32_range).
  apply hash_step_poly.
Qed.

Example ip_hash_of_a_pair : ip_hash "AB" = 31 * 65 + 66.
Proof. reflexivity. Qed.

(** ** Expiry dates out of range *)

(** X10.  A validity is not bounded by the validation: when every check
    passes but the expiry date, the clock reading plus the validity in
    milliseconds, lies beyond the last valid date, the creation with a custom
    shortcode answers 500 "Internal server error" and stores nothing. *)
Theorem oversized_validity_is_internal_error isURL PORT (fuel : nat)
    (db : store) (body : Body.t) (protocol host : option string)
    (eff : Effects.t) (url code : string) (v : Z) :
  Body.url body = Some url -> url <> "" -> isURL url = true ->
  Body.validity body = ValidityInt v -> 0 < v ->
  Body.shortcode body = Some code -> isValidShortcode code = true ->
  db !! code = None ->
  0 <= Effects.now_expiry eff ->
  MAX_TIME < Effects.now_expiry eff + v * 60 * 1000 ->
  createAlias isURL PORT fuel db body protocol host eff
  = Some (internal_error "Failed to create short URL", db).
Proof.
  intros Hurl Hne Hok Hval Hpos Hcode Hfmt Hfresh Hnow Hover.
  pose proof (isValidShortcode_nonempty _ Hfmt) as Ht.
  unfold createAlias. rewrite Hurl. simpl.
  destruct (String.eqb_spec url ""); [contradiction|]. simpl.
  rewrite Hok, Hval. simpl.
  destruct (Z.leb_spec v 0); [lia|].
  unfold finalShortcode_of. rewrite Hcode, Ht.
  assert (Hd : or_default (Some code) "" = code).
  { simpl. simpl in Ht. destruct (String.eqb code ""); [discriminate|reflexivity]. }
  rewrite Hd, Hfmt. simpl.
  apply has_false in Hfresh. rewrite Hfresh.
  unfold store_entry, calculateExpiry, toISOString.
  destruct (Z.leb_spec (Z.abs (Effects.now_expiry eff + v * 60 * 1000)) MAX_TIME);
    [lia|reflexivity].
Qed.

(** A validity of a million years. *)
Lemma oversized_validity_is_internal_error_witness :
  createAlias Demo.isURL Demo.PORT 0 ∅
    {| Body.url := Some "https://example.com/page";
       Body.validity := ValidityInt 525600000000;
       Body.shortcode := Some "abc123" |}
    None None Demo.effects
  = Some (internal_error "Failed to create short URL", ∅).
Proof.
  exact (oversized_validity_is_internal_error Demo.isURL Demo.PORT 0
           (∅ : store)
           {| Body.url := Some "https://example.com/page";
              Body.validity := ValidityInt 525600000000;
              Body.shortcode := Some "abc123" |}
           None None Demo.effects "https://example.com/page" "abc123"
           525600000000
           eq_refl ltac:(discriminate) eq_refl eq_refl eq_refl eq_refl eq_refl
           (lookup_empty _) ltac:(vm_compute; discriminate) eq_refl).
Defined.




(** * Properties of the logging *)

(** ** The handlers and their logged forms *)


Lemma getStatistics_logged_erases db shortcode :
  snd (getStatistics_logged db shortcode) = getStatistics db shortcode.
Proof.
  unfold getStatistics_logged, getStatistics.
  destruct (negb (isValidShortcode shortcode)); [reflexivity|].
  destruct (db !! shortcode); reflexivity.
Qed.

Lemma resolve_logged_erases db shortcode req now_check now_click :
  snd (resolve_logged db shortcode req now_check now_click)
  = resolve db shortcode req now_check now_click.
Proof.
  unfold resolve_logged, resolve.
  destruct (negb (isValidShortcode shortcode)); [reflexivity|].
  destruct (db !! shortcode) as [e|]; [|reflexivity].
  destruct (isExpired now_check (Entry.expiry e)); reflexivity.
Qed.



(** X13.  A statistics request is always logged twice: an INFO line with the
    shortcode before anything is checked, then one line for the outcome, an
    ERROR line for a shortcode that fails the format check (400) or is no key
    of the store (404), and an INFO line with the entry's click counter in
    decimal for a 200.  The response and the store are those of the handler
    without its Log calls. *)
Theorem statistics_logging (db : store) (shortcode : string) :
  let logged := getStatistics_logged db shortcode in
  snd logged = getStatistics db shortcode
  /\ exists outcome,
       fst logged
       = [log_info ("Retrieving statistics for shortcode: " ++ shortcode);
          outcome]
       /\ (isValidShortcode shortcode = false ->
           outcome
           = log_error ("Invalid shortcode format in statistics request: "
                        ++ shortcode))
       /\ (isValidShortcode shortcode = true -> db !! shortcode = None ->
           outcome
           = log_error ("Statistics requested for non-existent shortcode: "
                        ++ shortcode))
       /\ (forall urlEntry,
             isValidShortcode shortcode = true ->
             db !! shortcode = Some urlEntry ->
             outcome
             = log_info ("Statistics retrieved for " ++ shortcode
                         ++ " - Total clicks: "
                         ++ pretty (Entry.clickCount urlEntry)))
       /\ (LogCall.level outcome = "ERROR"
           <-> status_of (fst (getStatistics db shortcode)) <> 200).
Proof.
  intros logged. split; [apply getStatistics_logged_erases|].
  subst logged. unfold getStatistics_logged, getStatistics.
  destruct (isValidShortcode shortcode) eqn:Hv; simpl.
  - destruct (db !! shortcode) as [e|] eqn:Hl; simpl.
    + eexists. split; [reflexivity|].
      split; [discriminate|]. split; [discriminate|].
      split; [intros e' _ [= <-]; reflexivity|].
      split; [discriminate|]. intros H. now contradiction H.
    + eexists. split; [reflexivity|].
      split; [discriminate|]. split; [reflexivity|].
      split; [discriminate|]. split; [discriminate|reflexivity].
  - eexists. split; [reflexivity|].
    split; [reflexivity|]. split; [discriminate|].
    split; [discriminate|]. split; [discriminate|reflexivity].
Qed.

Example demo_statistics_logging :
  fst (getStatistics_logged Demo.clicked "abc123")
  = [log_info "Retrieving statistics for shortcode: abc123";
     log_info "Statistics retrieved for abc123 - Total clicks: 1"].
Proof. vm_compute. reflexivity. Qed.

(** X14.  A redirect request is logged only when it is answered with a
    redirect: then there is one INFO line, with the shortcode, the target and
    the entry's click counter after this click, in decimal.  A refusal (400,
    404 or 410) issues no Log call at all.  The response and the store are
    those of the handler without its Log call. *)
Theorem redirect_logging (db : store) (shortcode : string) (req : Req.t)
    (now_check now_click : Z) :
  let logged := resolve_logged db shortcode req now_check now_click in
  snd logged = resolve db shortcode req now_check now_click
  /\ (is_Some (error_of (fst (snd logged))) -> fst logged = [])
  /\ (forall url,
        fst (snd logged) = Redirect url ->
        exists urlEntry,
          db !! shortcode = Some urlEntry
          /\ url = Entry.originalUrl urlEntry
          /\ fst logged
             = [log_info ("Redirecting " ++ shortcode ++ " to " ++ url
                          ++ " - Click #"
                          ++ pretty (Entry.clickCount urlEntry + 1))]).
Proof.
  intros logged. split; [apply resolve_logged_erases|].
  subst logged. unfold resolve_logged.
  destruct (isValidShortcode shortcode); simpl;
    [|split; [reflexivity|discriminate]].
  destruct (db !! shortcode) as [e|]; [|split; [reflexivity|discriminate]].
  destruct (isExpired now_check (Entry.expiry e));
    [split; [reflexivity|discriminate]|].
  split.
  - intros [x Hx]. discriminate Hx.
  - intros url [= <-]. exists e. repeat split.
Qed.

Lemma redirect_logging_witness :
  is_Some (error_of
             (fst (snd (resolve_logged Demo.clicked "abc123" Demo.req
                          1700000060001 1700000060001))))
  /\ fst (resolve_logged Demo.clicked "abc123" Demo.req 1700000060001
            1700000060001) = [].
Proof.
  assert (H : is_Some (error_of
                (fst (snd (resolve_logged Demo.clicked "abc123" Demo.req
                             1700000060001 1700000060001)))))
    by (eexists; vm_compute; reflexivity).
  split; [exact H|].
  exact (proj1 (proj2 (redirect_logging Demo.clicked "abc123" Demo.req
                         1700000060001 1700000060001)) H).
Defined.

Example demo_redirect_logging :
  fst (resolve_logged Demo.created "abc123" Demo.req 1700000001000
         1700000001000)
  = [log_info
       "Redirecting abc123 to https://example.com/page - Click #1"].
Proof. vm_compute. reflexivity. Qed.

(** ** What reaches the log service *)

Lemma payload_of_log_info message :
  payload_ok (payload_of (log_info message))
  /\ Payload.message (payload_of (log_info message)) = message.
Proof. repeat split. left; reflexivity. Qed.

Lemma payload_of_log_error message :
  payload_ok (payload_of (log_error message))
  /\ Payload.message (payload_of (log_error message)) = message.
Proof. repeat split. right; reflexivity. Qed.

Ltac payloads :=
  repeat (apply List.Forall_cons;
          [first [apply payload_of_log_info|apply payload_of_log_error]|]);
  apply List.Forall_nil.

(** X15.  Whatever the request, a handler awaits at most two Log calls (a
    redirect at most one, a statistics request exactly two), and every body
    the logger posts for them carries the stack "backend", the package
    "url_shortener" and the level "info" or "error", in lower case though the
    handlers pass them in upper case, with the message unchanged. *)
Theorem posted_payloads isURL PORT (fuel : nat) (db : store) (body : Body.t)
    (protocol host : option string) (eff : Effects.t) (shortcode : string)
    (req : Req.t) (now_check now_click : Z) :
  (forall logs out,
     createAlias_logged isURL PORT fuel db body protocol host eff
     = Some (logs, out) ->
     (1 <= List.length logs <= 2)%nat
     /\ Forall (fun call => payload_ok (payload_of call)
                            /\ Payload.message (payload_of call)
                               = LogCall.message call) logs)
  /\ (List.length (fst (getStatistics_logged db shortcode)) = 2%nat
      /\ Forall (fun call => payload_ok (payload_of call)
                             /\ Payload.message (payload_of call)
                                = LogCall.message call)
           (fst (getStatistics_logged db shortcode)))
  /\ ((List.length
         (fst (resolve_logged db shortcode req now_check now_click)) <= 1)%nat
      /\ Forall (fun call => payload_ok (payload_of call)
                             /\ Payload.message (payload_of call)
                                = LogCall.message call)
           (fst (resolve_logged db shortcode req now_check now_click))).
Proof.
  pose proof payload_of_log_info as Hi. pose proof payload_of_log_error as He.
  split; [|split].
  - intros logs out H. unfold createAlias_logged in H.
    destruct (negb (truthy (Body.url body)));
      [injection H as <- _; split; [simpl; lia|payloads]|].
    destruct (negb (isURL (or_default (Body.url body) "")));
      [injection H as <- _; split; [simpl; lia|payloads]|].
    destruct (validityMinutes_of (Body.validity body)) as [early|v];
      [injection H as <- _; split; [simpl; lia|payloads]|].
    destruct (finalShortcode_of fuel db (Body.shortcode body)
                (Effects.random eff)) as [[early|code]|];
      [injection H as <- _; split; [simpl; lia|payloads]
      | |discriminate H].
    destruct (calculateExpiry (Effects.now_expiry eff) v);
      injection H as <- _; (split; [simpl; lia|payloads]).
  - unfold getStatistics_logged.
    destruct (negb (isValidShortcode shortcode));
      [split; [reflexivity|payloads]|].
    destruct (db !! shortcode);
      (split; [reflexivity|payloads]).
  - unfold resolve_logged.
    destruct (negb (isValidShortcode shortcode));
      [split; [simpl; lia|payloads]|].
    destruct (db !! shortcode) as [e|]; [|split; [simpl; lia|payloads]].
    destruct (isExpired now_check (Entry.expiry e));
      [split; [simpl; lia|payloads]|].
    split; [simpl; lia|payloads].
Qed.

(** ** The logger and its authorization header *)

Lemma headers_of_falsy token :
  truthy token = false ->
  headers_of token = {[ "Content-Type" := "application/json" ]}.
Proof. intros H. unfold headers_of. now rewrite H. Qed.

Lemma truthy_or_default token :
  truthy token = true -> truthy (Some (or_default token "")) = true.
Proof.
  destruct token as [s|]; [|discriminate]. simpl.
  destruct (String.eqb s "") eqn:E; [discriminate|]. simpl. now rewrite E.
Qed.

Lemma or_default_idem token :
  truthy token = true ->
  or_default (Some (or_default token "")) "" = or_default token "".
Proof.
  destruct token as [s|]; [|discriminate]. simpl.
  destruct (String.eqb s "") eqn:E; [discriminate|]. simpl. now rewrite E.
Qed.

Lemma headers_of_with_token config env token :
  headers_of (authToken_of (config_with_token config token) env)
  = if truthy token
    then <["Authorization" := "Bearer " ++ or_default token ""]>
           {[ "Content-Type" := "application/json" ]}
    else {[ "Content-Type" := "application/json" ]}.
Proof.
  unfold authToken_of, config_with_token. cbn [Config.authToken].
  destruct (truthy token) eqn:Ht; [|reflexivity].
  unfold headers_of.
  now rewrite (truthy_or_default _ Ht), (or_default_idem _ Ht).
Qed.

(** X16.  [setAuthToken] with a non-empty token sets the [Authorization]
    header to "Bearer " followed by the token, and with an absent, [null] or
    empty token removes the header; it leaves every other header, the base
    URL and the timeout as they were; the last call wins; and on a fresh
    logger it gives the logger that the constructor builds when the token is
    passed in the config ([null] for a falsy token). *)
Theorem setAuthToken_laws (parseInt : option string -> option Z)
    (config : Config.t) (env : Env.t) (token token' : option string)
    (apiClient : Client.t) :
  (truthy token = true ->
   Client.headers (setAuthToken token apiClient) !! "Authorization"
   = Some ("Bearer " ++ or_default token ""))
  /\ (truthy token = false ->
      Client.headers (setAuthToken token apiClient) !! "Authorization" = None)
  /\ (forall name, name <> "Authorization" ->
        Client.headers (setAuthToken token apiClient) !! name
        = Client.headers apiClient !! name)
  /\ Client.baseURL (setAuthToken token apiClient) = Client.baseURL apiClient
  /\ Client.timeout (setAuthToken token apiClient) = Client.timeout apiClient
  /\ setAuthToken token' (setAuthToken token apiClient)
     = setAuthToken token' apiClient
  /\ setAuthToken token (new_Logger parseInt config env)
     = new_Logger parseInt (config_with_token config token) env.
Proof.
  split; [|split; [|split; [|split; [|split; [|split]]]]].
  - intros H. unfold setAuthToken. simpl. rewrite H. apply lookup_insert_eq.
  - intros H. unfold setAuthToken. simpl. rewrite H. apply lookup_delete_eq.
  - intros name Hne. unfold setAuthToken. simpl.
    destruct (truthy token).
    + now rewrite lookup_insert_ne.
    + now rewrite lookup_delete_ne.
  - reflexivity.
  - reflexivity.
  - unfold setAuthToken. simpl. f_equal.
    destruct (truthy token'), (truthy token).
    + apply insert_insert_eq.
    + apply insert_delete_eq.
    + apply delete_insert_eq.
    + apply delete_delete_eq.
  - unfold setAuthToken, new_Logger.
    cbn [Client.baseURL Client.timeout Client.headers].
    rewrite headers_of_with_token.
    change (apiUrl_of (config_with_token config token) env)
      with (apiUrl_of config env).
    change (timeout_of parseInt (config_with_token config token) env)
      with (timeout_of parseInt config env).
    f_equal. unfold headers_of.
    destruct (truthy token), (truthy (authToken_of config env)).
    + apply insert_insert_eq.
    + reflexivity.
    + rewrite delete_insert_eq. now apply delete_singleton_ne.
    + now apply delete_singleton_ne.
Qed.

(** X17.  The constructor always sends [Content-Type: application/json].  It
    adds the [Authorization] header exactly for a non-empty token: the token
    of the config when it has one, else [LOG_AUTH_TOKEN].  A token given as
    [null] or as the empty string in the config switches the header off even
    when [LOG_AUTH_TOKEN] is set, since the environment is read only for an
    absent property; in the same way an empty [LOG_API_URL] falls back to
    the fixed address while an empty [apiUrl] of the config is kept, and a
    [LOG_TIMEOUT] that is no number or is zero gives 5000. *)
Theorem constructor_defaults (parseInt : option string -> option Z)
    (config : Config.t) (env : Env.t) :
  let apiClient := new_Logger parseInt config env in
  Client.headers apiClient !! "Content-Type" = Some "application/json"
  /\ (Config.authToken config = Null \/ Config.authToken config = Given "" ->
      Client.headers apiClient = {[ "Content-Type" := "application/json" ]})
  /\ (forall token,
        token <> "" ->
        Config.authToken config = Given token
        \/ Config.authToken config = Absent
           /\ Env.LOG_AUTH_TOKEN env = Some token ->
        Client.headers apiClient !! "Authorization"
        = Some ("Bearer " ++ token))
  /\ (Config.authToken config = Absent ->
      truthy (Env.LOG_AUTH_TOKEN env) = false ->
      Client.headers apiClient !! "Authorization" = None)
  /\ (Config.apiUrl config = Absent ->
      truthy (Env.LOG_API_URL env) = false ->
      Client.baseURL apiClient = Some "http://20.244.56.144")
  /\ (Config.apiUrl config = Given "" -> Client.baseURL apiClient = Some "")
  /\ (Config.timeout config = None ->
      parseInt (Env.LOG_TIMEOUT env) = None
      \/ parseInt (Env.LOG_TIMEOUT env) = Some 0 ->
      Client.timeout apiClient = 5000).
Proof.
  intros apiClient. subst apiClient. unfold new_Logger. simpl.
  assert (Hne : forall s, s <> "" -> String.eqb s "" = false).
  { intros s Hs. destruct (String.eqb_spec s ""); [contradiction|reflexivity]. }
  split; [|split; [|split; [|split; [|split; [|split]]]]].
  - unfold headers_of. destruct (truthy (authToken_of config env)).
    + now rewrite lookup_insert_ne.
    + apply lookup_singleton_eq.
  - intros [H|H]; unfold authToken_of; rewrite H; reflexivity.
  - intros token Ht [H|[H He]]; unfold authToken_of, headers_of; rewrite H.
    + simpl. rewrite (Hne _ Ht). simpl. apply lookup_insert_eq.
    + rewrite He. simpl. rewrite (Hne _ Ht). simpl. rewrite (Hne _ Ht). simpl.
      apply lookup_insert_eq.
  - intros H He. unfold authToken_of. rewrite H, He.
    now apply lookup_singleton_ne.
  - intros H He. unfold apiUrl_of. rewrite H. f_equal.
    destruct (Env.LOG_API_URL env) as [s|]; [|reflexivity].
    simpl in *. destruct (String.eqb s ""); [reflexivity|discriminate].
  - intros H. unfold apiUrl_of. now rewrite H.
  - intros H [Hp|Hp]; unfold timeout_of; rewrite H, Hp; reflexivity.
Qed.

(** The default logger of the service in an empty environment, and the same
    with a token in the environment that the config switches off. *)
Example demo_defaultLogger :
  new_Logger (fun _ => None)
    {| Config.apiUrl := Absent; Config.timeout := None;
       Config.authToken := Absent |}
    {| Env.LOG_API_URL := None; Env.LOG_TIMEOUT := None;
       Env.LOG_AUTH_TOKEN := None |}
  = {| Client.baseURL := Some "http://20.244.56.144";
       Client.timeout := 5000;
       Client.headers := {[ "Content-Type" := "application/json" ]} |}
  /\ Client.headers
       (new_Logger (fun _ => None)
          {| Config.apiUrl := Absent; Config.timeout := None;
             Config.authToken := Null |}
          {| Env.LOG_API_URL := None; Env.LOG_TIMEOUT := None;
             Env.LOG_AUTH_TOKEN := Some "secret" |})
     !! "Authorization" = None.
Proof. split; vm_compute; reflexivity. Qed.
